(** * LLM Maps Finder: the query-to-result pipeline

    A shallow embedding of [app/services/llm_service.py],
    [app/services/maps_service.py] and the [/search] handler of
    [app/main.py], together with the properties the specification
    states about them.

    Conventions of the embedding.
    - Python objects that come out of JSON are values of [value].
    - Python [float]s are idealised as real numbers ([R]): rounding,
      infinities and NaN are not modelled.  Where rounding decides a
      property, the arithmetic of the code is restated over the
      binary64 floats of the kernel (module [Binary64]).
    - A Python computation that may raise is a term of [result A]
      ([inl e]: the exception [e] escapes, [inr a]: normal return).
      Only subclasses of [Exception] are modelled, which is what the
      handlers of the program catch.
    - The network, the JSON decoder, [repr] and the pydantic field
      validators are collaborators of the program; they are fields of
      the record [World], and the general theorems hold for all of
      them.  The worlds of [Sample] are concrete collaborators on which
      the model runs.
    - The text of the built-in exceptions follows CPython 3.11. *)

From Stdlib Require Import Reals Lra Lia ZArith List String Ascii Bool.
From Stdlib Require Import Permutation DecimalString.
From Stdlib Require PrimFloat Uint63.
Import ListNotations.

Set Warnings "-register-all".
Set Warnings "-inexact-float".
Local Open Scope string_scope.
Local Open Scope Z_scope.

(** ** Python values *)

Module Py.

Inductive value : Type :=
| VNone
| VBool (b : bool)
| VInt (z : Z)
| VFloat (x : R)
| VStr (s : string)
| VList (l : list value)
| VDict (d : list (string * value)).

(** The exceptions of the program and of its libraries, with the data
    that [str(e)] shows. *)
Inductive exn : Type :=
| KeyError (key_repr : string)
| IndexError (msg : string)
| TypeError (msg : string)
| AttributeError (msg : string)
| ValueError (msg : string)
| JSONDecodeError (msg : string)
| ValidationError (msg : string)
| HTTPStatusError (status : string) (url : string)
| RequestError (msg : string)
| PlainException (msg : string).

Definition result (A : Type) : Type := (exn + A)%type.

Definition ret {A} (a : A) : result A := inr a.
Definition raise {A} (e : exn) : result A := inl e.
Definition bind {A B} (c : result A) (k : A -> result B) : result B :=
  match c with
  | inl e => inl e
  | inr a => k a
  end.

(** [try: c  except Exception as e: h e] *)
Definition try_except {A} (c : result A) (h : exn -> result A) : result A :=
  match c with
  | inl e => h e
  | inr a => inr a
  end.

(** [isinstance(e, json.JSONDecodeError)] *)
Definition is_JSONDecodeError (e : exn) : bool :=
  match e with
  | JSONDecodeError _ => true
  | _ => false
  end.

Definition newline : string := String (ascii_of_nat 10) EmptyString.

(** httpx names the class of a status line by its first digit. *)
Definition status_error_type (status : string) : string :=
  match substring 0 1 status with
  | "1" => "Informational response"
  | "3" => "Redirect response"
  | "4" => "Client error"
  | "5" => "Server error"
  | _ => "Invalid status code"
  end.

(** [repr(s)] of a string without quotes or escapes *)
Definition repr_str (s : string) : string := "'" ++ s ++ "'".

(** [str(e)].  A [KeyError] shows the [repr] of its key (kept in the
    exception as text); the status error of httpx shows the request
    URL. *)
Definition exn_str (e : exn) : string :=
  match e with
  | KeyError k => k
  | IndexError m | TypeError m | AttributeError m | ValueError m
  | JSONDecodeError m | ValidationError m | RequestError m
  | PlainException m => m
  | HTTPStatusError status url =>
      status_error_type status ++ " '" ++ status ++ "' for url '" ++ url ++ "'" ++ newline
      ++ "For more information check: https://developer.mozilla.org/en-US/docs/Web/HTTP/Status/"
      ++ substring 0 3 status
  end.

(** [type(v).__name__] *)
Definition type_name (v : value) : string :=
  match v with
  | VNone => "NoneType"
  | VBool _ => "bool"
  | VInt _ => "int"
  | VFloat _ => "float"
  | VStr _ => "str"
  | VList _ => "list"
  | VDict _ => "dict"
  end.

Definition not_subscriptable (v : value) : exn :=
  TypeError ("'" ++ type_name v ++ "' object is not subscriptable").

Fixpoint assoc {A} (k : string) (d : list (string * A)) : option A :=
  match d with
  | [] => None
  | (k', v) :: d' => if String.eqb k k' then Some v else assoc k d'
  end.

(** [v[k]] for a string key [k] *)
Definition getitem (v : value) (k : string) : result value :=
  match v with
  | VDict d =>
      match assoc k d with
      | Some x => ret x
      | None => raise (KeyError (repr_str k))
      end
  | VList _ => raise (TypeError "list indices must be integers or slices, not str")
  | VStr _ => raise (TypeError "string indices must be integers, not 'str'")
  | _ => raise (not_subscriptable v)
  end.

Fixpoint chars (s : string) : list value :=
  match s with
  | EmptyString => []
  | String c s' => VStr (String c EmptyString) :: chars s'
  end.

(** [v[0]] *)
Definition getitem0 (v : value) : result value :=
  match v with
  | VList l =>
      match l with
      | x :: _ => ret x
      | [] => raise (IndexError "list index out of range")
      end
  | VStr s =>
      match s with
      | String c _ => ret (VStr (String c EmptyString))
      | EmptyString => raise (IndexError "string index out of range")
      end
  | VDict _ => raise (KeyError "0")
  | _ => raise (not_subscriptable v)
  end.

(** [v.get(k, default)] *)
Definition dict_get (v : value) (k : string) (default : value) : result value :=
  match v with
  | VDict d =>
      match assoc k d with
      | Some x => ret x
      | None => ret default
      end
  | _ => raise (AttributeError ("'" ++ type_name v ++ "' object has no attribute 'get'"))
  end.

(** Truth value of an object, as tested by [if v:] and [not v]. *)
Definition truthy (v : value) : bool :=
  match v with
  | VNone => false
  | VBool b => b
  | VInt z => negb (z =? 0)
  | VFloat x => if Req_dec_T x 0 then false else true
  | VStr s => negb (String.eqb s "")
  | VList l => match l with [] => false | _ => true end
  | VDict d => match d with [] => false | _ => true end
  end.

(** [v != s] for a string literal [s] *)
Definition ne_str (v : value) (s : string) : bool :=
  match v with
  | VStr s' => negb (String.eqb s' s)
  | _ => true
  end.

Fixpoint contains_str (needle hay : string) : bool :=
  if prefix needle hay then true
  else match hay with
       | EmptyString => false
       | String _ hay' => contains_str needle hay'
       end.

Definition is_str (s : string) (v : value) : bool :=
  match v with
  | VStr s' => String.eqb s s'
  | _ => false
  end.

(** [field in v]: key of a dict, element of a list, substring of a
    string; any other object is not a container. *)
Definition py_in (field : string) (v : value) : result bool :=
  match v with
  | VDict d => ret (match assoc field d with Some _ => true | None => false end)
  | VList l => ret (existsb (is_str field) l)
  | VStr s => ret (contains_str field s)
  | _ => raise (TypeError ("argument of type '" ++ type_name v ++ "' is not iterable"))
  end.

(** [all(field in v for field in fields)]; the generator stops at the
    first false test and lets an exception through. *)
Fixpoint all_in (fields : list string) (v : value) : result bool :=
  match fields with
  | [] => ret true
  | f :: fs =>
      bind (py_in f v) (fun b => if b then all_in fs v else ret false)
  end.

(** [l[:n]]: a negative bound counts from the end. *)
Definition slice_to {A} (l : list A) (n : Z) : list A :=
  if 0 <=? n then firstn (Z.to_nat n) l
  else firstn (List.length l - Z.to_nat (- n)) l.

(** The objects that [for place in v[:n]] runs over. *)
Definition iter_slice_to (v : value) (n : Z) : result (list value) :=
  match v with
  | VList l => ret (slice_to l n)
  | VStr s => ret (slice_to (chars s) n)
  | VDict _ => raise (TypeError "unhashable type: 'slice'")
  | _ => raise (not_subscriptable v)
  end.

(** The float a number stands for in [math.radians] and in arithmetic
    with a float; other objects are no numbers. *)
Definition float_of (v : value) : option R :=
  match v with
  | VFloat x => Some x
  | VInt z => Some (IZR z)
  | VBool b => Some (if b then 1%R else 0%R)
  | _ => None
  end.

(** The argument [v] of a float operation that raises [TypeError msg]
    on an object that is no number. *)
Definition as_float (msg : string) (v : value) : result R :=
  match float_of v with
  | Some x => ret x
  | None => raise (TypeError msg)
  end.

Definition lower_ascii (c : ascii) : ascii :=
  let n := nat_of_ascii c in
  if ((65 <=? n) && (n <=? 90))%nat then ascii_of_nat (n + 32) else c.

(** [s.lower()] on ASCII text *)
Fixpoint lower (s : string) : string :=
  match s with
  | EmptyString => EmptyString
  | String c s' => String (lower_ascii c) (lower s')
  end.

Definition str_of_nat (n : nat) : string :=
  NilZero.string_of_uint (Nat.to_uint n).

End Py.

Import Py.

Declare Scope py_scope.
Delimit Scope py_scope with py.
Notation "x <- c ;; k" := (bind c (fun x => k))
  (at level 61, c at next level, right associativity) : py_scope.
Local Open Scope py_scope.

(** ** Geo math ([GoogleMapsService._calculate_distance]) *)

Local Open Scope R_scope.

(** [math.radians] *)
Definition radians (x : R) : R := x * (PI / 180).

(** [math.atan2] *)
Definition atan2 (y x : R) : R :=
  if Rlt_dec 0 x then atan (y / x)
  else if Rlt_dec x 0 then
    (if Rle_dec 0 y then atan (y / x) + PI else atan (y / x) - PI)
  else if Rlt_dec 0 y then PI / 2
  else if Rlt_dec y 0 then - (PI / 2)
  else 0.

(** Earth's radius in meters *)
Definition EARTH_RADIUS : R := 6371000.

Definition _calculate_distance (lat1 lng1 lat2 lng2 : R) : R :=
  let lat1_rad := radians lat1 in
  let lat2_rad := radians lat2 in
  let delta_lat := radians (lat2 - lat1) in
  let delta_lng := radians (lng2 - lng1) in
  let a := sin (delta_lat / 2) * sin (delta_lat / 2) +
           cos lat1_rad * cos lat2_rad *
           sin (delta_lng / 2) * sin (delta_lng / 2) in
  let c := 2 * atan2 (sqrt a) (sqrt (1 - a)) in
  EARTH_RADIUS * c.

Local Close Scope R_scope.

(** ** Configuration and collaborators *)

Record Settings : Type := {
  GOOGLE_MAPS_API_KEY : string;
  OLLAMA_BASE_URL : string;
  OLLAMA_MODEL : string;
  MAX_LOCATIONS_RETURNED : Z;
  MAPS_SEARCH_RADIUS : Z
}.

(** The field validators of pydantic: [None] is a rejected input. *)
Record Pydantic : Type := {
  validate_str : value -> option string;
  validate_float : value -> option R;
  validate_int : value -> option Z;
  validate_str_list : value -> option (list string);
  validate_dict_list : value -> option (list value);
  validation_message : string -> value -> string
}.

Record World : Type := {
  settings : Settings;
  (** [client.get(url, params=...)], [raise_for_status()] and
      [response.json()]: the decoded body, or the exception of the
      round trip (a timeout is one of them). *)
  http_get : string -> list (string * value) -> result value;
  (** the same for [client.post(url, json=payload)] *)
  http_post : string -> value -> result value;
  json_loads : string -> result value;
  (** [repr] of an object that is not a string *)
  py_repr : value -> string;
  pydantic : Pydantic
}.

(** [str(v)], as an f-string renders [{v}] *)
Definition py_str (W : World) (v : value) : string :=
  match v with
  | VStr s => s
  | _ => py_repr W v
  end.

Definition validated {A} (W : World) (validate : Pydantic -> value -> option A)
    (field : string) (v : value) : result A :=
  match validate (pydantic W) v with
  | Some a => ret a
  | None => raise (ValidationError (validation_message (pydantic W) field v))
  end.

(** A field of type [Optional[T]] *)
Definition validated_opt {A} (W : World) (validate : Pydantic -> value -> option A)
    (field : string) (v : value) : result (option A) :=
  match v with
  | VNone => ret None
  | _ => a <- validated W validate field v ;; ret (Some a)
  end.

(** ** Data model ([app/models.py]) *)

(** [Dict[str, float]] *)
Definition coords : Type := list (string * R).

Record LocationQuery : Type := {
  query : string;
  user_location : option coords
}.

Record LocationInfo : Type := {
  name : string;
  address : string;
  place_id : string;
  rating : option R;
  maps_url : string;
  lat : R;
  lng : R;
  distance : option R;
  opening_hours : option (list string);
  phone_number : option string;
  website : option string;
  price_level : option Z
}.

Record DirectionsResponse : Type := {
  dr_success : bool;
  dr_message : string;
  dr_routes : option (list value);
  dr_duration : option string;
  dr_distance : option string
}.

Record LocationResponse : Type := {
  success : bool;
  message : string;
  locations : list LocationInfo;
  extracted_info : option value;
  map_center : option coords;
  search_radius : option Z
}.

Record HTTPException : Type := {
  status_code : Z;
  detail : string
}.

(** ** Place search and directions ([app/services/maps_service.py]) *)

Definition base_url : string := "https://maps.googleapis.com/maps/api".

Definition PLACE_FIELDS : string :=
  "place_id,name,formatted_address,geometry,rating,opening_hours,international_phone_number,website,price_level".

(** [if user_location:]: a dict that is present and not empty *)
Definition supplied (user_location : option coords) : bool :=
  match user_location with
  | Some (_ :: _) => true
  | _ => false
  end.

(** [user_location[k]] *)
Definition coord (user_location : option coords) (k : string) : result R :=
  match user_location with
  | Some d =>
      match assoc k d with
      | Some x => ret x
      | None => raise (KeyError (repr_str k))
      end
  | None => raise (not_subscriptable VNone)
  end.

Definition _generate_maps_url (W : World) (place_id lat lng : value) : string :=
  if truthy place_id then
    "https://www.google.com/maps/place/?q=place_id:" ++ py_str W place_id
  else
    "https://www.google.com/maps/@" ++ py_str W lat ++ "," ++ py_str W lng ++ ",15z".

(** The request parameters of the text search. *)
Definition search_params (W : World) (query : value) (location_bias : option string)
    (user_location : option coords) : result (list (string * value)) :=
  let params := [("query", query);
                 ("key", VStr (GOOGLE_MAPS_API_KEY (settings W)));
                 ("fields", VStr PLACE_FIELDS)] in
  if supplied user_location then
    ulat <- coord user_location "lat" ;;
    ulng <- coord user_location "lng" ;;
    ret (params ++ [("location", VStr (py_str W (VFloat ulat) ++ "," ++ py_str W (VFloat ulng)));
                    ("radius", VInt (MAPS_SEARCH_RADIUS (settings W)))])%list
  else
    match location_bias with
    | Some bias =>
        if negb (String.eqb bias "") && negb (String.eqb (lower bias) "near me")
        then ret (params ++ [("locationbias", VStr ("point:" ++ bias))])%list
        else ret params
    | None => ret params
    end.

(** [place["geometry"]["location"][k]] *)
Definition geometry_location (place : value) (k : string) : result value :=
  geometry <- getitem place "geometry" ;;
  location <- getitem geometry "location" ;;
  getitem location k.

(** The body of the loop over the raw results: one [LocationInfo]. *)
Definition location_of_place (W : World) (user_location : option coords)
    (place : value) : result LocationInfo :=
  place_lat <- geometry_location place "lat" ;;
  place_lng <- geometry_location place "lng" ;;
  distance <-
    (if supplied user_location then
       ulat <- coord user_location "lat" ;;
       ulng <- coord user_location "lng" ;;
       plat <- as_float ("must be real number, not " ++ type_name place_lat) place_lat ;;
       plng <- as_float ("unsupported operand type(s) for -: '" ++ type_name place_lng
                         ++ "' and 'float'") place_lng ;;
       ret (Some (_calculate_distance ulat ulng plat plng))
     else ret None) ;;
  v_name <- dict_get place "name" (VStr "Unknown") ;;
  v_address <- dict_get place "formatted_address" (VStr "Address not available") ;;
  v_place_id <- dict_get place "place_id" (VStr "") ;;
  v_rating <- dict_get place "rating" VNone ;;
  hours <- dict_get place "opening_hours" (VDict []) ;;
  v_opening_hours <- dict_get hours "weekday_text" VNone ;;
  v_phone_number <- dict_get place "international_phone_number" VNone ;;
  v_website <- dict_get place "website" VNone ;;
  v_price_level <- dict_get place "price_level" VNone ;;
  v_place_id' <- dict_get place "place_id" (VStr "") ;;
  let url := _generate_maps_url W v_place_id' place_lat place_lng in
  (* LocationInfo(...): the fields are validated in declaration order *)
  f_name <- validated W validate_str "name" v_name ;;
  f_address <- validated W validate_str "address" v_address ;;
  f_place_id <- validated W validate_str "place_id" v_place_id ;;
  f_rating <- validated_opt W validate_float "rating" v_rating ;;
  f_lat <- validated W validate_float "lat" place_lat ;;
  f_lng <- validated W validate_float "lng" place_lng ;;
  f_opening_hours <- validated_opt W validate_str_list "opening_hours" v_opening_hours ;;
  f_phone_number <- validated_opt W validate_str "phone_number" v_phone_number ;;
  f_website <- validated_opt W validate_str "website" v_website ;;
  f_price_level <- validated_opt W validate_int "price_level" v_price_level ;;
  ret {| name := f_name; address := f_address; place_id := f_place_id;
         rating := f_rating; maps_url := url; lat := f_lat; lng := f_lng;
         distance := distance; opening_hours := f_opening_hours;
         phone_number := f_phone_number; website := f_website;
         price_level := f_price_level |}.

(** [for place in places: ... locations.append(location_info)] *)
Fixpoint for_each_place (W : World) (user_location : option coords)
    (places : list value) (locations : list LocationInfo)
    : result (list LocationInfo) :=
  match places with
  | [] => ret locations
  | place :: rest =>
      location_info <- location_of_place W user_location place ;;
      for_each_place W user_location rest (locations ++ [location_info])%list
  end.

Definition search_url : string := base_url ++ "/place/textsearch/json".

Definition search_places (W : World) (query : value) (location_bias : option string)
    (user_location : option coords) : result (list LocationInfo) :=
  params <- search_params W query location_bias user_location ;;
  try_except
    (data <- http_get W search_url params ;;
     status <- getitem data "status" ;;
     if ne_str status "OK" then
       status' <- dict_get data "status" (VStr "Unknown error") ;;
       raise (PlainException ("Google Places API error: " ++ py_str W status'))
     else
       results <- dict_get data "results" (VList []) ;;
       places <- iter_slice_to results (MAX_LOCATIONS_RETURNED (settings W)) ;;
       for_each_place W user_location places [])
    (fun e => raise (PlainException ("Error searching places: " ++ exn_str e))).

Definition failed_directions (msg : string) : DirectionsResponse :=
  {| dr_success := false; dr_message := msg; dr_routes := None;
     dr_duration := None; dr_distance := None |}.

Definition directions_url : string := base_url ++ "/directions/json".

Definition directions_params (W : World) (olat olng : R) (destination : string)
    (travel_mode : string) : list (string * value) :=
  [("origin", VStr (py_str W (VFloat olat) ++ "," ++ py_str W (VFloat olng)));
   ("destination", VStr destination);
   ("mode", VStr (lower travel_mode));
   ("key", VStr (GOOGLE_MAPS_API_KEY (settings W)))].

(** The body of the [try] block of [get_directions]. *)
Definition fetch_directions (W : World) (params : list (string * value))
    : result DirectionsResponse :=
  data <- http_get W directions_url params ;;
  status <- getitem data "status" ;;
  if ne_str status "OK" then
    status' <- dict_get data "status" (VStr "Unknown error") ;;
    ret (failed_directions ("Directions API error: " ++ py_str W status'))
  else
    routes <- dict_get data "routes" VNone ;;
    if negb (truthy routes) then
      ret (failed_directions "No routes found")
    else
      routes' <- getitem data "routes" ;;
      route <- getitem0 routes' ;;
      legs <- getitem route "legs" ;;
      leg <- getitem0 legs ;;
      v_routes <- getitem data "routes" ;;
      duration <- getitem leg "duration" ;;
      v_duration <- getitem duration "text" ;;
      distance <- getitem leg "distance" ;;
      v_distance <- getitem distance "text" ;;
      f_routes <- validated_opt W validate_dict_list "routes" v_routes ;;
      f_duration <- validated_opt W validate_str "duration" v_duration ;;
      f_distance <- validated_opt W validate_str "distance" v_distance ;;
      ret {| dr_success := true; dr_message := "Directions found";
             dr_routes := f_routes; dr_duration := f_duration;
             dr_distance := f_distance |}.

Definition get_directions (W : World) (origin : coords) (destination : string)
    (travel_mode : string) : result DirectionsResponse :=
  olat <- coord (Some origin) "lat" ;;
  olng <- coord (Some origin) "lng" ;;
  let params := directions_params W olat olng destination travel_mode in
  try_except (fetch_directions W params)
    (fun e => ret (failed_directions ("Error getting directions: " ++ exn_str e))).

(** ** Intent extraction ([app/services/llm_service.py]) *)

(** The fixed instruction of the chat request, abridged to its first
    sentence: the text only travels to the provider. *)
Definition system_prompt : string :=
  "You are a location extraction assistant. Extract location search information from user queries and return ONLY a valid JSON object with these exact fields".

Definition required_fields : list string :=
  ["search_term"; "location"; "query_type"; "formatted_query"].

Definition chat_payload (W : World) (user_query : string) : value :=
  VDict [("model", VStr (OLLAMA_MODEL (settings W)));
         ("messages",
           VList [VDict [("role", VStr "system"); ("content", VStr system_prompt)];
                  VDict [("role", VStr "user"); ("content", VStr user_query)]]);
         ("stream", VBool false);
         ("format", VStr "json")].

(** The degraded intent of the two handlers. *)
Definition fallback_intent (user_query : string) (diagnostic : string) : value :=
  VDict [("search_term", VStr user_query);
         ("location", VStr "near me");
         ("query_type", VStr "search");
         ("formatted_query", VStr user_query);
         ("error", VStr diagnostic)].

(** [json.loads(v)] *)
Definition loads (W : World) (v : value) : result value :=
  match v with
  | VStr s => json_loads W s
  | _ => raise (TypeError ("the JSON object must be str, bytes or bytearray, not "
                           ++ type_name v))
  end.

Definition chat_url (W : World) : string := OLLAMA_BASE_URL (settings W) ++ "/api/chat".

(** The body of the [try] block of [extract_location_intent]. *)
Definition request_intent (W : World) (user_query : string) : result value :=
  let payload := chat_payload W user_query in
  result <- http_post W (chat_url W) payload ;;
  message <- getitem result "message" ;;
  message_content <- getitem message "content" ;;
  extracted_data <- loads W message_content ;;
  ok <- all_in required_fields extracted_data ;;
  if negb ok then
    raise (ValueError "Missing required fields in LLM response")
  else
    ret extracted_data.

Definition extract_location_intent (W : World) (user_query : string) : result value :=
  try_except (request_intent W user_query)
    (fun e =>
       if is_JSONDecodeError e then
         ret (fallback_intent user_query ("JSON parsing error: " ++ exn_str e))
       else
         ret (fallback_intent user_query ("LLM service error: " ++ exn_str e))).

(** ** The search endpoint ([search_locations] of [app/main.py]) *)

(** [sum(xs)]: the additions start from [0], left to right. *)
Definition py_sum (xs : list R) : R := fold_left Rplus xs 0%R.

Definition search_locations (W : World) (q : LocationQuery)
    : HTTPException + LocationResponse :=
  match
    (extracted <- extract_location_intent W (query q) ;;
     formatted_query <- dict_get extracted "formatted_query" (VStr (query q)) ;;
     locs <- search_places W formatted_query None (user_location q) ;;
     let center :=
       match locs with
       | _ :: _ =>
           let avg_lat := (py_sum (map lat locs) / INR (List.length locs))%R in
           let avg_lng := (py_sum (map lng locs) / INR (List.length locs))%R in
           Some [("lat", avg_lat); ("lng", avg_lng)]
       | [] => if supplied (user_location q) then user_location q else None
       end in
     match locs with
     | [] =>
         ret {| success := false;
                message := "No locations found for your query";
                locations := [];
                extracted_info := Some extracted;
                map_center := center;
                search_radius := None |}
     | _ :: _ =>
         ret {| success := true;
                message := "Found " ++ str_of_nat (List.length locs) ++ " location(s)";
                locations := locs;
                extracted_info := Some extracted;
                map_center := center;
                search_radius := Some (MAPS_SEARCH_RADIUS (settings W)) |}
     end)
  with
  | inr response => inr response
  | inl e =>
      inl {| status_code := 500;
             detail := "Error processing your request: " ++ exn_str e |}
  end.

(** ** The average of the map center over binary64 floats *)

Module Binary64.

Import PrimFloat.

(** [float(n)] of a length [n] *)
Definition of_nat (n : nat) : float := of_uint63 (Uint63.of_Z (Z.of_nat n)).

(** [sum(xs)] on floats: the additions start from [0], left to right,
    each rounded to binary64 (the plain loop of CPython 3.11). *)
Definition py_sum (xs : list float) : float := fold_left add xs 0%float.



End Binary64.

(** ** Vocabulary of the specification *)

(** A raw result carries a coordinate when [geometry.location] holds
    both [lat] and [lng]. *)
Definition has_coordinate (place : value) : bool :=
  match place with
  | VDict p =>
      match assoc "geometry" p with
      | Some (VDict g) =>
          match assoc "location" g with
          | Some (VDict l) =>
              match assoc "lat" l, assoc "lng" l with
              | Some _, Some _ => true
              | _, _ => false
              end
          | _ => false
          end
      | _ => false
      end
  | _ => false
  end.

(** An intent record: an object that holds the four required fields. *)
Definition is_intent (v : value) : bool :=
  match v with
  | VDict d =>
      forallb (fun f => match assoc f d with Some _ => true | None => false end)
        required_fields
  | _ => false
  end.

(** ** Further vocabulary and entry points *)

(** ** Geocoding ([GoogleMapsService.geocode_address]) *)

Definition geocode_url : string := base_url ++ "/geocode/json".

Definition geocode_params (W : World) (address : string) : list (string * value) :=
  [("address", VStr address); ("key", VStr (GOOGLE_MAPS_API_KEY (settings W)))].

(** The body of the [try] block of [geocode_address]; [and] tests
    [data["results"]] only when the status is "OK". *)
Definition fetch_geocode (W : World) (address : string) : result (option value) :=
  data <- http_get W geocode_url (geocode_params W address) ;;
  status <- getitem data "status" ;;
  if negb (ne_str status "OK") then
    results <- getitem data "results" ;;
    if truthy results then
      results' <- getitem data "results" ;;
      result <- getitem0 results' ;;
      r_lat <- geometry_location result "lat" ;;
      r_lng <- geometry_location result "lng" ;;
      formatted_address <- getitem result "formatted_address" ;;
      ret (Some (VDict [("lat", r_lat); ("lng", r_lng);
                        ("formatted_address", formatted_address)]))
    else ret None
  else ret None.

Definition geocode_address (W : World) (address : string) : result (option value) :=
  try_except (fetch_geocode W address) (fun _ => ret None).

(** ** The directions endpoint ([get_directions] of [app/main.py]) *)

Record DirectionsRequest : Type := {
  dq_origin : coords;
  dq_destination : string;
  (** [Optional[str]], "DRIVING" when the request leaves it out *)
  dq_travel_mode : option string
}.

(** The call [maps_service.get_directions(origin, destination,
    travel_mode)] with the optional travel mode of the request:
    [None] has no [lower], which is looked up after the two
    coordinates of the origin. *)
Definition call_get_directions (W : World) (origin : coords) (destination : string)
    (travel_mode : option string) : result DirectionsResponse :=
  match travel_mode with
  | Some mode => get_directions W origin destination mode
  | None =>
      olat <- coord (Some origin) "lat" ;;
      olng <- coord (Some origin) "lng" ;;
      raise (AttributeError "'NoneType' object has no attribute 'lower'")
  end.

Definition directions_endpoint (W : World) (request : DirectionsRequest)
    : HTTPException + DirectionsResponse :=
  match call_get_directions W (dq_origin request) (dq_destination request)
          (dq_travel_mode request) with
  | inr directions => inr directions
  | inl e =>
      inl {| status_code := 500;
             detail := "Error getting directions: " ++ exn_str e |}
  end.

(** ** Configuration ([app/config.py]) and the health report *)

(** [os.getenv(key, default)] *)
Definition getenv (env : list (string * string)) (key default : string) : string :=
  match assoc key env with
  | Some v => v
  | None => default
  end.

(** [s.split(",")] *)
Fixpoint split_comma (s : string) : list string :=
  match s with
  | EmptyString => [""]
  | String c s' =>
      if Ascii.eqb c "," then "" :: split_comma s'
      else match split_comma s' with
           | head :: tail => String c head :: tail
           | [] => [String c ""]
           end
  end.

(** [",".join(parts)] *)
Fixpoint join_comma (parts : list string) : string :=
  match parts with
  | [] => ""
  | [part] => part
  | part :: rest => part ++ "," ++ join_comma rest
  end.

(** The attributes of [Settings] that the pipeline does not read
    itself, beside those it reads ([core]). *)
Record Config : Type := {
  core : Settings;
  GOOGLE_MAPS_JS_API_KEY : string;
  ALLOWED_ORIGINS : list string;
  API_KEY_HEADER : string;
  RATE_LIMIT_REQUESTS : Z;
  RATE_LIMIT_WINDOW : Z
}.

(** The class body of [Settings], evaluated top to bottom, and then
    [Settings()].  [py_int] is Python's [int] on a string. *)
Definition load_settings (py_int : string -> result Z) (env : list (string * string))
    : result Config :=
  let maps_key := getenv env "GOOGLE_MAPS_API_KEY" "" in
  let js_key := getenv env "GOOGLE_MAPS_JS_API_KEY" "" in
  let ollama_url := getenv env "OLLAMA_BASE_URL" "http://localhost:11434" in
  let ollama_model := getenv env "OLLAMA_MODEL" "gemma3:1b" in
  let origins :=
    split_comma (getenv env "ALLOWED_ORIGINS"
                   "http://localhost:3000,http://localhost:8080,http://127.0.0.1:5500") in
  requests <- py_int (getenv env "RATE_LIMIT_REQUESTS" "100") ;;
  window <- py_int (getenv env "RATE_LIMIT_WINDOW" "3600") ;;
  cap <- py_int (getenv env "MAX_LOCATIONS_RETURNED" "5") ;;
  radius <- py_int (getenv env "MAPS_SEARCH_RADIUS" "50000") ;;
  if String.eqb maps_key "" then
    raise (ValueError "GOOGLE_MAPS_API_KEY environment variable is required")
  else if String.eqb js_key "" then
    raise (ValueError "GOOGLE_MAPS_JS_API_KEY environment variable is required")
  else
    ret {| core := {| GOOGLE_MAPS_API_KEY := maps_key;
                      OLLAMA_BASE_URL := ollama_url;
                      OLLAMA_MODEL := ollama_model;
                      MAX_LOCATIONS_RETURNED := cap;
                      MAPS_SEARCH_RADIUS := radius |};
           GOOGLE_MAPS_JS_API_KEY := js_key;
           ALLOWED_ORIGINS := origins;
           API_KEY_HEADER := "X-API-Key";
           RATE_LIMIT_REQUESTS := requests;
           RATE_LIMIT_WINDOW := window |}.

(** [health_check] of [app/main.py] *)
Definition health_check (C : Config) : value :=
  VDict [("status", VStr "healthy");
         ("services",
           VDict [("api", VStr "running");
                  ("ollama", VStr (OLLAMA_BASE_URL (core C)));
                  ("google_maps",
                    VStr (if negb (String.eqb (GOOGLE_MAPS_API_KEY (core C)) "")
                          then "configured" else "not configured"))]);
         ("rate_limits",
           VDict [("requests_per_window", VInt (RATE_LIMIT_REQUESTS C));
                  ("window_seconds", VInt (RATE_LIMIT_WINDOW C))])].

(** ** Security headers ([SecurityHeaders.add_security_headers]) *)

(** A response as the middleware sees it: status, raw header list in
    order, body.  Starlette stores every header name in lower case and
    finds a header by comparing the stored name with the key in lower
    case. *)
Record Response : Type := {
  rs_status : Z;
  rs_headers : list (string * string);
  rs_body : string
}.

(** The invariant of a raw header list: every name is in lower case. *)
Definition lowercase_names (headers : list (string * string)) : Prop :=
  Forall (fun header => lower (fst header) = fst header) headers.

(** [item_key == key.lower()]: the stored name is the key in lower
    case. *)
Definition has_name (name : string) (header : string * string) : bool :=
  String.eqb (fst header) (lower name).

Definition drop_header (name : string) (headers : list (string * string))
    : list (string * string) :=
  filter (fun header => negb (has_name name header)) headers.

Fixpoint replace_header (name value : string) (headers : list (string * string))
    : list (string * string) :=
  match headers with
  | [] => [(lower name, value)]
  | header :: rest =>
      if has_name name header then (lower name, value) :: drop_header name rest
      else header :: replace_header name value rest
  end.

(** [response.headers[name] = value]: the first header of that name
    takes the lower-cased name and the value and later ones are
    removed; a new name is added at the end. *)
Definition set_header (name value : string) (response : Response) : Response :=
  {| rs_status := rs_status response;
     rs_headers := replace_header name value (rs_headers response);
     rs_body := rs_body response |}.

(** [response.headers[name]], [None] for a [KeyError] *)
Definition get_header (name : string) (response : Response) : option string :=
  option_map snd (find (has_name name) (rs_headers response)).

Definition CONTENT_SECURITY_POLICY : string :=
  "default-src 'self' https://maps.googleapis.com https://maps.gstatic.com https://fonts.googleapis.com https://fonts.gstatic.com https://cdn.jsdelivr.net https://cdn.tailwindcss.com; "
  ++ "script-src 'self' 'unsafe-inline' 'unsafe-eval' https://maps.googleapis.com https://cdn.jsdelivr.net https://cdn.tailwindcss.com; "
  ++ "style-src 'self' 'unsafe-inline' https://fonts.googleapis.com https://maps.googleapis.com https://maps.gstatic.com https://cdn.tailwindcss.com; "
  ++ "style-src-elem 'self' 'unsafe-inline' https://fonts.googleapis.com https://maps.googleapis.com https://maps.gstatic.com https://cdn.tailwindcss.com; "
  ++ "font-src 'self' https://fonts.gstatic.com https://maps.gstatic.com; "
  ++ "img-src 'self' data: blob: https://maps.googleapis.com https://maps.gstatic.com https://*.googusercontent.com; "
  ++ "connect-src 'self' https://maps.googleapis.com; "
  ++ "worker-src blob:".

Definition add_security_headers {Request : Type} (request : Request)
    (call_next : Request -> result Response) : result Response :=
  response <- call_next request ;;
  let response := set_header "X-Content-Type-Options" "nosniff" response in
  let response := set_header "X-Frame-Options" "DENY" response in
  let response := set_header "X-XSS-Protection" "1; mode=block" response in
  let response := set_header "Referrer-Policy" "strict-origin-when-cross-origin" response in
  let response := set_header "Content-Security-Policy" CONTENT_SECURITY_POLICY response in
  ret response.

(** The names that the middleware sets, as the header list spells them. *)
Definition SECURITY_HEADER_NAMES : list string :=
  ["x-content-type-options"; "x-frame-options"; "x-xss-protection";
   "referrer-policy"; "content-security-policy"].

(** The header bears one of these names. *)
Definition is_security_header (header : string * string) : bool :=
  existsb (fun name => has_name name header) SECURITY_HEADER_NAMES.

(** The five headers as the header list holds them once they are set. *)
Definition SECURITY_HEADERS : list (string * string) :=
  [("x-content-type-options", "nosniff");
   ("x-frame-options", "DENY");
   ("x-xss-protection", "1; mode=block");
   ("referrer-policy", "strict-origin-when-cross-origin");
   ("content-security-policy", CONTENT_SECURITY_POLICY)].

(** ** Sample collaborators *)

Module Sample.

Fixpoint all_strs (l : list value) : option (list string) :=
  match l with
  | [] => Some []
  | VStr s :: l' => option_map (cons s) (all_strs l')
  | _ => None
  end.

Definition is_dict (v : value) : bool :=
  match v with
  | VDict _ => true
  | _ => false
  end.

(** Validators that accept exactly the declared type. *)
Definition strict : Pydantic :=
  {| validate_str := fun v => match v with VStr s => Some s | _ => None end;
     validate_float := fun v => match v with
                                | VFloat x => Some x
                                | VInt z => Some (IZR z)
                                | _ => None
                                end;
     validate_int := fun v => match v with VInt z => Some z | _ => None end;
     validate_str_list := fun v => match v with VList l => all_strs l | _ => None end;
     validate_dict_list := fun v => match v with
                                    | VList l => if forallb is_dict l then Some l else None
                                    | _ => None
                                    end;
     validation_message := fun field _ => "1 validation error for " ++ field |}.

Definition repr (v : value) : string :=
  match v with
  | VNone => "None"
  | VBool true => "True"
  | VBool false => "False"
  | VInt z => NilZero.string_of_int (Z.to_int z)
  | VFloat _ => "<float>"
  | _ => "<object>"
  end.

Definition show (v : value) : string :=
  match v with
  | VStr s => s
  | _ => repr v
  end.

Definition config (cap : Z) : Settings :=
  {| GOOGLE_MAPS_API_KEY := "AIzaSy-server-key";
     OLLAMA_BASE_URL := "http://localhost:11434";
     OLLAMA_MODEL := "gemma3:1b";
     MAX_LOCATIONS_RETURNED := cap;
     MAPS_SEARCH_RADIUS := 50000 |}.

Definition place_at (id : string) (la ln : R) : value :=
  VDict [("place_id", VStr id); ("name", VStr "Cafe");
         ("geometry", VDict [("location", VDict [("lat", VFloat la); ("lng", VFloat ln)])])].

Definition no_geometry : value :=
  VDict [("place_id", VStr "c"); ("name", VStr "Nowhere")].

Definition places_body (results : list value) : value :=
  VDict [("status", VStr "OK"); ("results", VList results)].

Definition leg : value :=
  VDict [("duration", VDict [("text", VStr "12 mins"); ("value", VInt 720)]);
         ("distance", VDict [("text", VStr "3.4 km"); ("value", VInt 3400)])].

Definition route : value := VDict [("legs", VList [leg])].

Definition directions_body (status : string) (routes : list value) : value :=
  VDict [("status", VStr status); ("routes", VList routes)].

Definition intent : value :=
  VDict [("search_term", VStr "coffee"); ("location", VStr "near me");
         ("query_type", VStr "search"); ("formatted_query", VStr "coffee near me")].

Definition chat_reply : value :=
  VDict [("message", VDict [("role", VStr "assistant"); ("content", VStr "<reply>")])].

(** A world whose model replies with the content [decoded] and whose
    mapping provider answers every request with [answer]. *)
Definition world (cap : Z) (decoded : result value) (answer : result value) : World :=
  {| settings := config cap;
     http_get := fun _ _ => answer;
     http_post := fun _ _ => ret chat_reply;
     json_loads := fun _ => decoded;
     py_repr := repr;
     pydantic := strict |}.

Definition healthy (cap : Z) (results : list value) : World :=
  world cap (ret intent) (ret (places_body results)).

Definition three_places : list value :=
  [place_at "a" 0 0; place_at "b" 0 2; place_at "" 1 1].

Definition here : coords := [("lat", 0%R); ("lng", 1%R)].

(** The model answers with a JSON array of the four field names. *)
Definition array_reply : value :=
  VList [VStr "search_term"; VStr "location"; VStr "query_type"; VStr "formatted_query"].

(** The model answers with an object that lacks [query_type]. *)
Definition partial_reply : value :=
  VDict [("search_term", VStr "coffee"); ("location", VStr "near me");
         ("formatted_query", VStr "coffee near me")].

Definition array_world : World :=
  world 5 (ret array_reply) (ret (places_body three_places)).

(** The query string of a request, as it stands in its URL: reserved
    characters of the other parameters would be percent-encoded, the
    key is made of unreserved characters. *)
Fixpoint query_string (params : list (string * value)) : string :=
  match params with
  | [] => ""
  | [(k, v)] => k ++ "=" ++ show v
  | (k, v) :: rest => k ++ "=" ++ show v ++ "&" ++ query_string rest
  end.

(** The provider answers every request with [500]; [raise_for_status]
    raises the status error of httpx, which names the request URL. *)
Definition failing_get (url : string) (params : list (string * value)) : result value :=
  raise (HTTPStatusError "500 Internal Server Error"
           (url ++ "?" ++ query_string params)).

Definition leaky_world : World :=
  {| settings := config 5;
     http_get := failing_get;
     http_post := fun _ _ => ret chat_reply;
     json_loads := fun _ => ret intent;
     py_repr := repr;
     pydantic := strict |}.

Definition downtown : LocationQuery :=
  {| query := "coffee near me"; user_location := None |}.

Definition nearby : LocationQuery :=
  {| query := "coffee near me"; user_location := Some here |}.


(** [int] on the decimal numerals of the defaults; other text is
    refused. *)
Definition int_of_numeral (s : string) : result Z :=
  match NilEmpty.int_of_string s with
  | Some d => ret (Z.of_int d)
  | None => raise (ValueError ("invalid literal for int() with base 10: " ++ repr_str s))
  end.

Definition environment : list (string * string) :=
  [("GOOGLE_MAPS_API_KEY", "AIzaSy-server-key");
   ("GOOGLE_MAPS_JS_API_KEY", "AIzaSy-browser-key");
   ("MAX_LOCATIONS_RETURNED", "3")].

Definition geocode_result : value :=
  VDict [("formatted_address", VStr "Taipei 101, Xinyi District");
         ("geometry", VDict [("location", VDict [("lat", VFloat 25); ("lng", VFloat 121)])])].

End Sample.

(** * Properties *)

(** ** The exception monad *)

Lemma bind_inr {A B} (c : result A) (k : A -> result B) (b : B) :
  bind c k = inr b -> exists a, c = inr a /\ k a = inr b.
Proof.
  destruct c as [e | a]; simpl; intros H; [discriminate | eauto].
Qed.

(** Inversion of a successful sequence: its first step succeeded. *)
Ltac bind_inv H :=
  let a := fresh "a" in
  let Ha := fresh "Ha" in
  apply bind_inr in H; destruct H as (a & Ha & H).

Ltac bind_as H x Hx :=
  apply bind_inr in H; destruct H as (x & Hx & H).

(** ** Strings *)





(** ** Geo math *)

Section GeoMath.

Local Open Scope R_scope.







End GeoMath.

(** ** Map links *)

(** C7. For a place id that is a non-empty string the map link is the
    place-id URL; for the empty place id it is the coordinate URL at
    zoom level 15. *)
Theorem maps_url_by_place_id (W : World) (id : string) (la ln : R) :
  (id <> "" ->
   _generate_maps_url W (VStr id) (VFloat la) (VFloat ln)
   = "https://www.google.com/maps/place/?q=place_id:" ++ id) /\
  (id = "" ->
   _generate_maps_url W (VStr id) (VFloat la) (VFloat ln)
   = "https://www.google.com/maps/@" ++ py_str W (VFloat la) ++ ","
     ++ py_str W (VFloat ln) ++ ",15z").
Proof.
  unfold _generate_maps_url, truthy. split; intros H.
  - destruct (String.eqb_spec id ""); [contradiction | reflexivity].
  - subst id. reflexivity.
Qed.

Lemma maps_url_by_place_id_witness :
  _generate_maps_url (Sample.healthy 5 []) (VStr "ChIJ") (VFloat 0) (VFloat 2)
  = "https://www.google.com/maps/place/?q=place_id:ChIJ" /\
  _generate_maps_url (Sample.healthy 5 []) (VStr "") (VFloat 0) (VFloat 2)
  = "https://www.google.com/maps/@<float>,<float>,15z".
Proof.
  split.
  - apply (proj1 (maps_url_by_place_id (Sample.healthy 5 []) "ChIJ" 0 2)). discriminate.
  - apply (proj2 (maps_url_by_place_id (Sample.healthy 5 []) "" 0 2)). reflexivity.
Defined.

(** ** The search endpoint *)

(** What a response of the endpoint is made of. *)
Lemma search_locations_inr (W : World) (q : LocationQuery) (r : LocationResponse) :
  search_locations W q = inr r ->
  exists extracted formatted_query locs,
    extract_location_intent W (query q) = inr extracted /\
    dict_get extracted "formatted_query" (VStr (query q)) = inr formatted_query /\
    search_places W formatted_query None (user_location q) = inr locs /\
    locations r = locs /\
    success r = match locs with [] => false | _ :: _ => true end /\
    search_radius r =
      match locs with
      | [] => None
      | _ :: _ => Some (MAPS_SEARCH_RADIUS (settings W))
      end /\
    map_center r =
      match locs with
      | [] => if supplied (user_location q) then user_location q else None
      | _ :: _ =>
          Some [("lat", (py_sum (map lat locs) / INR (List.length locs))%R);
                ("lng", (py_sum (map lng locs) / INR (List.length locs))%R)]
      end.
Proof.
  unfold search_locations. intros H.
  destruct (extract_location_intent W (query q)) as [e | extracted] eqn:Hx;
    cbn [bind] in H; [discriminate |].
  destruct (dict_get extracted "formatted_query" (VStr (query q)))
    as [e | formatted_query] eqn:Hf; cbn [bind] in H; [discriminate |].
  destruct (search_places W formatted_query None (user_location q))
    as [e | locs] eqn:Hs; cbn [bind] in H; [discriminate |].
  exists extracted, formatted_query, locs.
  destruct locs as [| l0 locs]; cbn [bind] in H; unfold ret in H;
    match type of H with
    | inr ?x = inr r => assert (Hr : r = x) by congruence; clear H; subst r
    end;
    cbn [locations success search_radius map_center];
    repeat split; assumption || reflexivity.
Qed.

(** C3. In every response of the search endpoint, [success] is true
    exactly when the locations are not empty, and the search radius is
    the configured one on success and absent otherwise. *)
Theorem success_iff_locations (W : World) (q : LocationQuery) (r : LocationResponse) :
  search_locations W q = inr r ->
  (success r = true <-> locations r <> []) /\
  (success r = true -> search_radius r = Some (MAPS_SEARCH_RADIUS (settings W))) /\
  (success r = false -> search_radius r = None).
Proof.
  intros H.
  destruct (search_locations_inr W q r H)
    as (extracted & fq & locs & _ & _ & _ & Hl & Hs & Hr & _).
  rewrite Hl, Hs, Hr.
  destruct locs; repeat split; intros; try discriminate; try reflexivity.
  contradiction.
Qed.

Lemma success_iff_locations_witness :
  exists r,
    search_locations (Sample.healthy 2 Sample.three_places) Sample.downtown = inr r /\
    (success r = true <-> locations r <> []) /\
    (success r = true -> search_radius r = Some 50000) /\
    (success r = false -> search_radius r = None).
Proof.
  eexists. split; [vm_compute; reflexivity |].
  apply (success_iff_locations (Sample.healthy 2 Sample.three_places) Sample.downtown).
  vm_compute. reflexivity.
Defined.


Example center_of_0_and_2 : (py_sum [0; 2] / INR 2 = 1)%R.
Proof. unfold py_sum. simpl. lra. Qed.



(** One healthy round trip without a user location: one record, no
    distance, and the place-id map link. *)
Example one_result_end_to_end :
  exists r,
    search_locations (Sample.healthy 5 [Sample.place_at "a" 0 2]) Sample.downtown = inr r /\
    success r = true /\
    message r = "Found 1 location(s)" /\
    map distance (locations r) = [None] /\
    map maps_url (locations r) = ["https://www.google.com/maps/place/?q=place_id:a"] /\
    extracted_info r = Some Sample.intent.
Proof.
  eexists. split; [reflexivity |]. repeat split.
Qed.

(** ** Place search *)

Lemma for_each_place_inr (W : World) (ul : option coords) (places : list value) :
  forall acc locs,
    for_each_place W ul places acc = inr locs ->
    exists new,
      locs = (acc ++ new)%list /\
      Forall2 (fun place info => location_of_place W ul place = inr info) places new.
Proof.
  induction places as [| place rest IH]; intros acc locs H; simpl in H.
  - injection H as <-. exists []. rewrite app_nil_r. split; constructor.
  - bind_inv H. destruct (IH _ _ H) as (new & -> & Hall).
    exists (a :: new). rewrite <- app_assoc. split; [reflexivity |].
    constructor; assumption.
Qed.

Lemma for_each_place_inl (W : World) (ul : option coords) (places : list value)
    (place : value) (e : exn) :
  In place places ->
  location_of_place W ul place = inl e ->
  forall acc, exists e', for_each_place W ul places acc = inl e'.
Proof.
  induction places as [| p rest IH]; intros Hin He acc; [contradiction |].
  simpl. destruct (location_of_place W ul p) as [e0 | info] eqn:Hp; simpl.
  - eauto.
  - destruct Hin as [-> | Hin]; [congruence |]. apply IH; assumption.
Qed.

(** What a successful search is made of. *)
Lemma search_places_inr (W : World) (query : value) (bias : option string)
    (ul : option coords) (locs : list LocationInfo) :
  search_places W query bias ul = inr locs ->
  exists params data results places,
    search_params W query bias ul = inr params /\
    http_get W search_url params = inr data /\
    dict_get data "results" (VList []) = inr results /\
    iter_slice_to results (MAX_LOCATIONS_RETURNED (settings W)) = inr places /\
    Forall2 (fun place info => location_of_place W ul place = inr info) places locs.
Proof.
  unfold search_places. intros H.
  bind_inv H. rename a into params.
  unfold try_except in H.
  destruct (http_get W search_url params) as [e | data] eqn:Hget;
    cbn [bind] in H; [discriminate |].
  destruct (getitem data "status") as [e | status]; cbn [bind] in H; [discriminate |].
  destruct (ne_str status "OK").
  { destruct (dict_get data "status" (VStr "Unknown error")); discriminate. }
  destruct (dict_get data "results" (VList [])) as [e | results] eqn:Hres;
    cbn [bind] in H; [discriminate |].
  destruct (iter_slice_to results (MAX_LOCATIONS_RETURNED (settings W)))
    as [e | places] eqn:Hit; cbn [bind] in H; [discriminate |].
  destruct (for_each_place W ul places []) as [e | locs'] eqn:Hloop; [discriminate |].
  injection H as <-.
  destruct (for_each_place_inr W ul places [] locs' Hloop) as (new & -> & Hall).
  exists params, data, results, places. auto.
Qed.

Lemma slice_to_length {A} (l : list A) (n : Z) :
  0 <= n ->
  slice_to l n = firstn (Z.to_nat n) l /\
  Z.of_nat (List.length (slice_to l n)) <= n /\
  (n < Z.of_nat (List.length l) -> Z.of_nat (List.length (slice_to l n)) = n).
Proof.
  intros Hn. unfold slice_to.
  destruct (Z.leb_spec 0 n); [| lia].
  rewrite length_firstn. repeat split; lia.
Qed.

(** C5. A successful place search returns at most
    [MAX_LOCATIONS_RETURNED] records; they are built, position by
    position, from the first raw results of the provider, so the
    provider's order is kept; and when the provider has more results
    than the cap, exactly the cap is returned. *)
Theorem search_places_capped (W : World) (query : value) (bias : option string)
    (ul : option coords) (params : list (string * value)) (data : value)
    (raw : list value) (locs : list LocationInfo) :
  0 <= MAX_LOCATIONS_RETURNED (settings W) ->
  search_params W query bias ul = inr params ->
  http_get W search_url params = inr data ->
  dict_get data "results" (VList []) = inr (VList raw) ->
  search_places W query bias ul = inr locs ->
  Z.of_nat (List.length locs) <= MAX_LOCATIONS_RETURNED (settings W) /\
  Forall2 (fun place info => location_of_place W ul place = inr info)
    (firstn (Z.to_nat (MAX_LOCATIONS_RETURNED (settings W))) raw) locs /\
  (MAX_LOCATIONS_RETURNED (settings W) < Z.of_nat (List.length raw) ->
   Z.of_nat (List.length locs) = MAX_LOCATIONS_RETURNED (settings W)).
Proof.
  intros Hcap Hparams Hget Hraw H.
  destruct (search_places_inr W query bias ul locs H)
    as (params' & data' & results & places & Hp & Hg & Hr & Hit & Hall).
  rewrite Hparams in Hp. injection Hp as <-.
  rewrite Hget in Hg. injection Hg as <-.
  rewrite Hraw in Hr. injection Hr as <-.
  simpl in Hit. injection Hit as <-.
  destruct (slice_to_length raw _ Hcap) as (Heq & Hle & Hexact).
  rewrite <- (Forall2_length Hall).
  repeat split; try assumption.
  rewrite <- Heq. assumption.
Qed.

Lemma search_places_capped_witness :
  exists locs,
    search_places (Sample.healthy 2 Sample.three_places) (VStr "coffee near me") None None
    = inr locs /\
    Z.of_nat (List.length locs) <= 2 /\
    Forall2 (fun place info =>
               location_of_place (Sample.healthy 2 Sample.three_places) None place
               = inr info)
      (firstn 2 Sample.three_places) locs /\
    (2 < 3 -> Z.of_nat (List.length locs) = 2).
Proof.
  eexists. split; [vm_compute; reflexivity |].
  apply (search_places_capped (Sample.healthy 2 Sample.three_places)
           (VStr "coffee near me") None None _ _ Sample.three_places _
           ltac:(discriminate) eq_refl eq_refl eq_refl eq_refl).
Defined.

Lemma validated_inr {A} (W : World) (validate : Pydantic -> value -> option A)
    (field : string) (v : value) (a : A) :
  validated W validate field v = inr a -> validate (pydantic W) v = Some a.
Proof.
  unfold validated, ret, raise. destruct (validate (pydantic W) v); congruence.
Qed.

Lemma as_float_inr (msg : string) (v : value) (x : R) :
  as_float msg v = inr x -> float_of v = Some x.
Proof.
  unfold as_float, ret, raise. destruct (float_of v); congruence.
Qed.

(** The coordinate and the distance of a record built from a raw result. *)
Lemma location_of_place_inr (W : World) (ul : option coords) (place : value)
    (info : LocationInfo) :
  location_of_place W ul place = inr info ->
  exists vlat vlng,
    geometry_location place "lat" = inr vlat /\
    geometry_location place "lng" = inr vlng /\
    validate_float (pydantic W) vlat = Some (lat info) /\
    validate_float (pydantic W) vlng = Some (lng info) /\
    if supplied ul then
      exists ulat ulng plat plng,
        coord ul "lat" = inr ulat /\ coord ul "lng" = inr ulng /\
        float_of vlat = Some plat /\ float_of vlng = Some plng /\
        distance info = Some (_calculate_distance ulat ulng plat plng)
    else distance info = None.
Proof.
  unfold location_of_place. intros H.
  bind_as H vlat Hvlat. bind_as H vlng Hvlng. bind_as H odist Hdist.
  do 10 bind_inv H.
  bind_as H f_name Hname. bind_as H f_addr Haddr. bind_as H f_id Hid.
  bind_as H f_rating Hrating. bind_as H f_lat Hlat. bind_as H f_lng Hlng.
  do 4 bind_inv H.
  injection H as <-. cbn [lat lng distance].
  apply validated_inr in Hlat, Hlng.
  exists vlat, vlng. repeat (split; [assumption |]).
  destruct (supplied ul).
  - bind_as Hdist ulat Hulat. bind_as Hdist ulng Hulng.
    bind_as Hdist p_lat Hplat. bind_as Hdist p_lng Hplng.
    apply as_float_inr in Hplat, Hplng.
    injection Hdist as <-. exists ulat, ulng, p_lat, p_lng. auto.
  - injection Hdist as <-. reflexivity.
Qed.

Lemma Forall2_Forall_r {A B} (P : A -> B -> Prop) (Q : B -> Prop)
    (l : list A) (l' : list B) :
  Forall2 P l l' -> (forall x y, P x y -> Q y) -> Forall Q l'.
Proof.
  induction 1; intros HPQ; constructor; eauto.
Qed.

Lemma coord_Some (here : coords) (k : string) (x : R) :
  assoc k here = Some x -> coord (Some here) k = inr x.
Proof. intros H. unfold coord. rewrite H. reflexivity. Qed.

(** C6. After a successful place search: when a user location (with
    its latitude and longitude) was supplied, every returned record
    carries a distance, and the distance is the Haversine formula
    [R * 2 * atan2 (sqrt a) (sqrt (1 - a))] with the Earth radius
    6,371,000 m, taken between the user location and the coordinate of
    the record; when no user location was supplied, no record carries a
    distance. *)
Theorem distance_iff_user_location (W : World) (query : value) (bias : option string)
    (ul : option coords) (locs : list LocationInfo) :
  search_places W query bias ul = inr locs ->
  (forall here ulat ulng,
     ul = Some here -> assoc "lat" here = Some ulat -> assoc "lng" here = Some ulng ->
     Forall (fun info => distance info <> None) locs /\
     ((forall v x y, float_of v = Some x -> validate_float (pydantic W) v = Some y -> y = x) ->
      Forall (fun info =>
                distance info
                = Some (let delta_lat := radians (lat info - ulat) in
                        let delta_lng := radians (lng info - ulng) in
                        let a := sin (delta_lat / 2) * sin (delta_lat / 2) +
                                 cos (radians ulat) * cos (radians (lat info)) *
                                 sin (delta_lng / 2) * sin (delta_lng / 2) in
                        6371000 * (2 * atan2 (sqrt a) (sqrt (1 - a))))%R)
        locs)) /\
  (ul = None -> Forall (fun info => distance info = None) locs).
Proof.
  intros H.
  destruct (search_places_inr W query bias ul locs H)
    as (params & data & results & places & _ & _ & _ & _ & Hall).
  split.
  - intros here ulat ulng -> Hlat Hlng.
    assert (Hsup : supplied (Some here) = true)
      by (destruct here; [discriminate | reflexivity]).
    assert (Hdist : Forall (fun info =>
              exists vlat vlng plat plng,
                validate_float (pydantic W) vlat = Some (lat info) /\
                validate_float (pydantic W) vlng = Some (lng info) /\
                float_of vlat = Some plat /\ float_of vlng = Some plng /\
                distance info = Some (_calculate_distance ulat ulng plat plng)) locs).
    { apply (Forall2_Forall_r _ _ _ _ Hall). intros place info Hinfo.
      destruct (location_of_place_inr W _ place info Hinfo)
        as (vlat & vlng & _ & _ & Hvlat & Hvlng & Hd).
      rewrite Hsup in Hd.
      destruct Hd as (ulat' & ulng' & plat & plng & Hu1 & Hu2 & Hp1 & Hp2 & Hd).
      rewrite (coord_Some here "lat" ulat Hlat) in Hu1. injection Hu1 as <-.
      rewrite (coord_Some here "lng" ulng Hlng) in Hu2. injection Hu2 as <-.
      exists vlat, vlng, plat, plng. auto. }
    split.
    + eapply Forall_impl; [| exact Hdist]. cbv beta.
      intros info (vlat & vlng & plat & plng & _ & _ & _ & _ & Hd).
      rewrite Hd. discriminate.
    + intros Hval. eapply Forall_impl; [| exact Hdist]. cbv beta.
      intros info (vlat & vlng & plat & plng & Hv1 & Hv2 & Hp1 & Hp2 & Hd).
      rewrite (Hval _ _ _ Hp1 Hv1), (Hval _ _ _ Hp2 Hv2). exact Hd.
  - intros ->. apply (Forall2_Forall_r _ _ _ _ Hall). intros place info Hinfo.
    destruct (location_of_place_inr W _ place info Hinfo)
      as (vlat & vlng & _ & _ & _ & _ & Hd).
    exact Hd.
Qed.

Lemma strict_float_coherent (v : value) (x y : R) :
  float_of v = Some x -> validate_float Sample.strict v = Some y -> y = x.
Proof.
  destruct v; simpl; congruence.
Qed.

Lemma distance_iff_user_location_witness :
  (exists locs,
     search_places (Sample.healthy 5 Sample.three_places) (VStr "coffee near me") None
       (Some Sample.here) = inr locs /\
     Forall (fun info => distance info <> None) locs /\
     Forall (fun info =>
               distance info
               = Some (let delta_lat := radians (lat info - 0) in
                       let delta_lng := radians (lng info - 1) in
                       let a := sin (delta_lat / 2) * sin (delta_lat / 2) +
                                cos (radians 0) * cos (radians (lat info)) *
                                sin (delta_lng / 2) * sin (delta_lng / 2) in
                       6371000 * (2 * atan2 (sqrt a) (sqrt (1 - a))))%R) locs) /\
  (exists locs,
     search_places (Sample.healthy 5 Sample.three_places) (VStr "coffee near me") None None
     = inr locs /\
     Forall (fun info => distance info = None) locs).
Proof.
  split.
  - eexists. split; [reflexivity |].
    destruct (proj1 (distance_iff_user_location (Sample.healthy 5 Sample.three_places)
                       (VStr "coffee near me") None (Some Sample.here) _ eq_refl)
                Sample.here 0%R 1%R eq_refl eq_refl eq_refl) as [Hsome Hhav].
    split; [exact Hsome | apply Hhav; exact strict_float_coherent].
  - eexists. split; [reflexivity |].
    apply (proj2 (distance_iff_user_location (Sample.healthy 5 Sample.three_places)
                    (VStr "coffee near me") None None _ eq_refl) eq_refl).
Defined.

Lemma has_coordinate_false (place : value) :
  has_coordinate place = false ->
  (exists e, geometry_location place "lat" = inl e) \/
  (exists e, geometry_location place "lng" = inl e).
Proof.
  unfold has_coordinate, geometry_location, getitem. intros H.
  destruct place as [| | | | | | p]; try (left; eexists; reflexivity).
  destruct (assoc "geometry" p) as [geometry |]; cbn [bind ret raise];
    [| left; eexists; reflexivity].
  destruct geometry as [| | | | | | g]; try (left; eexists; reflexivity).
  destruct (assoc "location" g) as [location |]; cbn [bind ret raise];
    [| left; eexists; reflexivity].
  destruct location as [| | | | | | l]; try (left; eexists; reflexivity).
  destruct (assoc "lat" l); [| left; eexists; reflexivity].
  destruct (assoc "lng" l); [discriminate | right; eexists; reflexivity].
Qed.

Lemma location_of_place_no_coordinate (W : World) (ul : option coords) (place : value) :
  has_coordinate place = false -> exists e, location_of_place W ul place = inl e.
Proof.
  intros H. unfold location_of_place.
  destruct (has_coordinate_false place H) as [[e He] | [e He]].
  - exists e. rewrite He. reflexivity.
  - destruct (geometry_location place "lat") as [e' | vlat]; [eexists; reflexivity |].
    exists e. rewrite He. reflexivity.
Qed.

(** C10. When one of the raw results that the search would process
    lacks its [geometry.location] coordinate, the search returns no
    record at all: the call raises the one exception whose message
    starts with "Error searching places". *)
Theorem missing_coordinate_fails_search (W : World) (query : value)
    (bias : option string) (ul : option coords) (params : list (string * value))
    (data : value) (raw : list value) (place : value) :
  search_params W query bias ul = inr params ->
  http_get W search_url params = inr data ->
  dict_get data "results" (VList []) = inr (VList raw) ->
  In place (slice_to raw (MAX_LOCATIONS_RETURNED (settings W))) ->
  has_coordinate place = false ->
  exists msg,
    search_places W query bias ul
    = inl (PlainException ("Error searching places: " ++ msg)).
Proof.
  intros Hparams Hget Hraw Hin Hno.
  unfold search_places. rewrite Hparams. cbn [bind]. rewrite Hget. cbn [bind].
  destruct (getitem data "status") as [e | status]; cbn [bind try_except];
    [eexists; reflexivity |].
  destruct (ne_str status "OK").
  { destruct (dict_get data "status" (VStr "Unknown error")); eexists; reflexivity. }
  rewrite Hraw. cbn [bind iter_slice_to ret].
  destruct (location_of_place_no_coordinate W ul place Hno) as [e He].
  destruct (for_each_place_inl W ul _ place e Hin He []) as [e' ->].
  eexists. reflexivity.
Qed.

Lemma missing_coordinate_fails_search_witness :
  exists msg,
    search_places (Sample.healthy 5 [Sample.place_at "a" 0 0; Sample.no_geometry])
      (VStr "coffee near me") None None
    = inl (PlainException ("Error searching places: " ++ msg)).
Proof.
  apply (missing_coordinate_fails_search
           (Sample.healthy 5 [Sample.place_at "a" 0 0; Sample.no_geometry])
           (VStr "coffee near me") None None _ _
           [Sample.place_at "a" 0 0; Sample.no_geometry] Sample.no_geometry
           eq_refl eq_refl eq_refl).
  - right. left. reflexivity.
  - reflexivity.
Defined.

(** ** Directions *)

Lemma getitem_dict_get (data : value) (k : string) (v default : value) :
  getitem data k = inr v -> dict_get data k default = inr v.
Proof.
  unfold getitem, dict_get, ret, raise.
  destruct data; try discriminate. destruct (assoc k d); congruence.
Qed.




(** ** Intent extraction *)

(** Both handlers return; nothing escapes the function. *)
Lemma extract_location_intent_total (W : World) (user_query : string) :
  exists v, extract_location_intent W user_query = inr v.
Proof.
  unfold extract_location_intent, try_except.
  destruct (request_intent W user_query) as [e | v]; [| eauto].
  destruct (is_JSONDecodeError e); eauto.
Qed.

(** An exception of the [try] block gives the degraded intent, with
    the message of the exception as the diagnostic. *)
Lemma extract_location_intent_fallback (W : World) (user_query : string) (e : exn) :
  request_intent W user_query = inl e ->
  exists label,
    extract_location_intent W user_query
    = inr (fallback_intent user_query (label ++ exn_str e)).
Proof.
  intros H. unfold extract_location_intent, try_except. rewrite H.
  destruct (is_JSONDecodeError e); eexists; reflexivity.
Qed.

Lemma request_intent_provider_error (W : World) (user_query : string) (e : exn) :
  http_post W (chat_url W) (chat_payload W user_query) = inl e ->
  request_intent W user_query = inl e.
Proof.
  intros H. unfold request_intent. rewrite H. reflexivity.
Qed.

Lemma request_intent_malformed_json (W : World) (user_query : string)
    (reply message : value) (content : string) (e : exn) :
  http_post W (chat_url W) (chat_payload W user_query) = inr reply ->
  getitem reply "message" = inr message ->
  getitem message "content" = inr (VStr content) ->
  json_loads W content = inl e ->
  request_intent W user_query = inl e.
Proof.
  intros Hpost Hmsg Hcontent Hloads. unfold request_intent.
  rewrite Hpost. cbn [bind]. rewrite Hmsg. cbn [bind]. rewrite Hcontent. cbn [bind loads].
  rewrite Hloads. reflexivity.
Qed.

Lemma all_in_missing (fields : list string) (d : list (string * value)) (field : string) :
  In field fields -> assoc field d = None -> all_in fields (VDict d) = inr false.
Proof.
  induction fields as [| f fs IH]; intros Hin Hnone; [contradiction |].
  cbn [all_in py_in bind ret].
  destruct (assoc f d) eqn:Hf; [| reflexivity].
  destruct Hin as [-> | Hin]; [congruence | auto].
Qed.

Lemma all_in_present (fields : list string) (d : list (string * value)) :
  (forall field, In field fields -> assoc field d <> None) ->
  all_in fields (VDict d) = inr true.
Proof.
  induction fields as [| f fs IH]; intros Hall; [reflexivity |].
  cbn [all_in py_in bind ret].
  destruct (assoc f d) eqn:Hf.
  - apply IH. intros field Hin. apply Hall. right. assumption.
  - exfalso. apply (Hall f); [left; reflexivity | assumption].
Qed.

(** An object that lacks one of the four fields gives the degraded
    intent; an object that holds them all is returned as it is. *)
Lemma extract_location_intent_object (W : World) (user_query : string)
    (reply message : value) (content : string) (d : list (string * value)) :
  http_post W (chat_url W) (chat_payload W user_query) = inr reply ->
  getitem reply "message" = inr message ->
  getitem message "content" = inr (VStr content) ->
  json_loads W content = inr (VDict d) ->
  (forall field, In field required_fields -> assoc field d = None ->
     extract_location_intent W user_query
     = inr (fallback_intent user_query
              "LLM service error: Missing required fields in LLM response")) /\
  ((forall field, In field required_fields -> assoc field d <> None) ->
   extract_location_intent W user_query = inr (VDict d)).
Proof.
  intros Hpost Hmsg Hcontent Hloads.
  unfold extract_location_intent, request_intent.
  rewrite Hpost. cbn [bind]. rewrite Hmsg. cbn [bind]. rewrite Hcontent. cbn [bind loads].
  rewrite Hloads. cbn [bind]. split.
  - intros field Hin Hnone. rewrite (all_in_missing _ _ _ Hin Hnone). reflexivity.
  - intros Hall. rewrite (all_in_present _ _ Hall). reflexivity.
Qed.

Example reply_with_all_fields_is_returned :
  extract_location_intent (Sample.healthy 5 []) "coffee near me" = inr Sample.intent.
Proof. reflexivity. Qed.

Example reply_without_query_type_degrades :
  extract_location_intent (Sample.world 5 (ret Sample.partial_reply) (ret VNone))
    "coffee near me"
  = inr (fallback_intent "coffee near me"
           "LLM service error: Missing required fields in LLM response").
Proof. reflexivity. Qed.

Example unreachable_model_degrades (W : World) :
  http_post W (chat_url W) (chat_payload W "coffee near me")
  = inl (RequestError "All connection attempts failed") ->
  extract_location_intent W "coffee near me"
  = inr (fallback_intent "coffee near me"
           "LLM service error: All connection attempts failed").
Proof.
  intros H. unfold extract_location_intent.
  rewrite (request_intent_provider_error W _ _ H). reflexivity.
Qed.

(** C1 (the code departs from the claim).  When the model replies with
    the JSON array of the four field names, every membership test
    succeeds, so the array itself is returned: it is not an intent
    record, it carries no [error], and the search endpoint that reads
    [formatted_query] from it answers with status 500. *)
Theorem array_reply_is_returned :
  json_loads Sample.array_world "<reply>" = inr Sample.array_reply /\
  extract_location_intent Sample.array_world "coffee near me" = inr Sample.array_reply /\
  is_intent Sample.array_reply = false /\
  (forall diagnostic,
     Sample.array_reply <> fallback_intent "coffee near me" diagnostic) /\
  search_locations Sample.array_world Sample.downtown
  = inl {| status_code := 500;
           detail := "Error processing your request: 'list' object has no attribute 'get'" |}.
Proof.
  repeat split; try reflexivity. intros diagnostic. discriminate.
Qed.

(** ** Failure messages *)

(** The message of a failed provider round trip reaches the caller
    word for word. *)
Lemma search_failure_detail (W : World) (q : LocationQuery) (extracted fq : value)
    (params : list (string * value)) (e : exn) :
  extract_location_intent W (query q) = inr extracted ->
  dict_get extracted "formatted_query" (VStr (query q)) = inr fq ->
  search_params W fq None (user_location q) = inr params ->
  http_get W search_url params = inl e ->
  search_locations W q
  = inl {| status_code := 500;
           detail := "Error processing your request: Error searching places: "
                     ++ exn_str e |}.
Proof.
  intros Hx Hfq Hparams Hget. unfold search_locations, search_places.
  rewrite Hx. cbn [bind]. rewrite Hfq. cbn [bind]. rewrite Hparams. cbn [bind].
  rewrite Hget. reflexivity.
Qed.

(** C9 (the code departs from the claim).  When the place-search
    provider answers with an error status, the status error of the
    HTTP client names the request URL, whose query string holds the
    API key; the search endpoint passes that text on in the detail of
    its 500 response. *)
Theorem api_key_in_failure_detail :
  exists message,
    search_locations Sample.leaky_world Sample.downtown
    = inl {| status_code := 500; detail := message |} /\
    contains_str (GOOGLE_MAPS_API_KEY (settings Sample.leaky_world)) message = true /\
    contains_str "key=AIzaSy-server-key" message = true.
Proof.
  eexists. split; [reflexivity |]. split; vm_compute; reflexivity.
Qed.

(** * Further properties of the code *)

(** ** Place search, continued *)

(** X4. A supplied user location takes precedence over the location
    bias: the request carries the coordinate and the configured radius
    and no [locationbias], and the search gives the same result
    whatever the bias is. *)
Theorem user_location_overrides_bias (W : World) (query : value) (bias : option string)
    (here : coords) (ulat ulng : R) :
  assoc "lat" here = Some ulat ->
  assoc "lng" here = Some ulng ->
  search_params W query bias (Some here)
  = inr [("query", query);
         ("key", VStr (GOOGLE_MAPS_API_KEY (settings W)));
         ("fields", VStr PLACE_FIELDS);
         ("location", VStr (py_str W (VFloat ulat) ++ "," ++ py_str W (VFloat ulng)));
         ("radius", VInt (MAPS_SEARCH_RADIUS (settings W)))] /\
  search_places W query bias (Some here) = search_places W query None (Some here).
Proof.
  intros Hlat Hlng.
  assert (Hsup : supplied (Some here) = true)
    by (destruct here; [discriminate | reflexivity]).
  split.
  - unfold search_params. rewrite Hsup.
    rewrite (coord_Some here "lat" ulat Hlat), (coord_Some here "lng" ulng Hlng).
    reflexivity.
  - unfold search_places, search_params. rewrite Hsup. reflexivity.
Qed.

Lemma user_location_overrides_bias_witness :
  search_params (Sample.healthy 5 []) (VStr "coffee") (Some "Taipei 101") (Some Sample.here)
  = inr [("query", VStr "coffee");
         ("key", VStr "AIzaSy-server-key");
         ("fields", VStr PLACE_FIELDS);
         ("location", VStr "<float>,<float>");
         ("radius", VInt 50000)] /\
  search_places (Sample.healthy 5 []) (VStr "coffee") (Some "Taipei 101") (Some Sample.here)
  = search_places (Sample.healthy 5 []) (VStr "coffee") None (Some Sample.here).
Proof.
  apply (user_location_overrides_bias (Sample.healthy 5 []) (VStr "coffee")
           (Some "Taipei 101") Sample.here 0%R 1%R eq_refl eq_refl).
Defined.

(** X5. Without a user location, a bias that is empty or that spells
    "near me" in any letter case is the same as no bias at all; any
    other bias is sent as [locationbias = point:<bias>]. *)
Theorem location_bias_near_me (W : World) (query : value) (bias : string) :
  (bias = "" \/ lower bias = "near me" ->
   search_params W query (Some bias) None = search_params W query None None /\
   search_places W query (Some bias) None = search_places W query None None) /\
  (bias <> "" -> lower bias <> "near me" ->
   search_params W query (Some bias) None
   = inr [("query", query);
          ("key", VStr (GOOGLE_MAPS_API_KEY (settings W)));
          ("fields", VStr PLACE_FIELDS);
          ("locationbias", VStr ("point:" ++ bias))]).
Proof.
  split.
  - intros Hnear.
    assert (Hp : search_params W query (Some bias) None = search_params W query None None).
    { unfold search_params. cbn [supplied].
      destruct Hnear as [-> | Hnear]; [reflexivity |].
      rewrite Hnear. cbn [String.eqb Ascii.eqb Bool.eqb negb andb].
      rewrite andb_false_r. reflexivity. }
    split; [exact Hp |]. unfold search_places. rewrite Hp. reflexivity.
  - intros Hne Hnot. unfold search_params. cbn [supplied].
    destruct (String.eqb_spec bias ""); [contradiction |].
    destruct (String.eqb_spec (lower bias) "near me"); [contradiction |].
    reflexivity.
Qed.

Lemma location_bias_near_me_witness :
  (search_params (Sample.healthy 5 []) (VStr "noodles") (Some "Near Me") None
   = search_params (Sample.healthy 5 []) (VStr "noodles") None None /\
   search_places (Sample.healthy 5 []) (VStr "noodles") (Some "Near Me") None
   = search_places (Sample.healthy 5 []) (VStr "noodles") None None) /\
  search_params (Sample.healthy 5 []) (VStr "noodles") (Some "Taipei 101") None
  = inr [("query", VStr "noodles");
         ("key", VStr "AIzaSy-server-key");
         ("fields", VStr PLACE_FIELDS);
         ("locationbias", VStr "point:Taipei 101")].
Proof.
  split.
  - apply (proj1 (location_bias_near_me (Sample.healthy 5 []) (VStr "noodles") "Near Me")).
    right. reflexivity.
  - apply (proj2 (location_bias_near_me (Sample.healthy 5 []) (VStr "noodles") "Taipei 101"));
      discriminate.
Defined.

(** X6. A user location that is a non-empty dict without [lat] (or
    with [lat] but without [lng]) makes the search raise the bare
    [KeyError] of that key, whatever the provider would answer: the
    parameters are built before the [try] block, so this failure is not
    wrapped into the "Error searching places" exception. *)
Theorem malformed_user_location_raises_key_error (W : World) (query : value)
    (bias : option string) (here : coords) :
  here <> [] ->
  (assoc "lat" here = None ->
   search_places W query bias (Some here) = inl (KeyError "'lat'")) /\
  (forall ulat, assoc "lat" here = Some ulat -> assoc "lng" here = None ->
   search_places W query bias (Some here) = inl (KeyError "'lng'")).
Proof.
  intros Hne.
  assert (Hsup : supplied (Some here) = true)
    by (destruct here; [contradiction | reflexivity]).
  unfold search_places, search_params. rewrite Hsup. unfold coord. split.
  - intros ->. reflexivity.
  - intros ulat -> ->. reflexivity.
Qed.

Lemma malformed_user_location_raises_key_error_witness :
  search_places (Sample.healthy 5 Sample.three_places) (VStr "coffee") None
    (Some [("latitude", 0%R)]) = inl (KeyError "'lat'") /\
  search_places (Sample.healthy 5 Sample.three_places) (VStr "coffee") None
    (Some [("lat", 0%R)]) = inl (KeyError "'lng'").
Proof.
  split.
  - apply (proj1 (malformed_user_location_raises_key_error
                    (Sample.healthy 5 Sample.three_places) (VStr "coffee") None
                    [("latitude", 0%R)] ltac:(discriminate))).
    reflexivity.
  - apply (proj2 (malformed_user_location_raises_key_error
                    (Sample.healthy 5 Sample.three_places) (VStr "coffee") None
                    [("lat", 0%R)] ltac:(discriminate)) 0%R); reflexivity.
Defined.

Lemma for_each_place_empty_dict (W : World) (places : list value) :
  forall acc,
    for_each_place W (Some []) places acc = for_each_place W None places acc.
Proof.
  induction places as [| place rest IH]; intros acc; [reflexivity |].
  cbn [for_each_place].
  change (location_of_place W (Some []) place) with (location_of_place W None place).
  destruct (location_of_place W None place); cbn [bind]; [reflexivity | apply IH].
Qed.

(** X7. An empty dict as user location is the same as no user
    location: the search sends the same request and returns the same
    records, and the endpoint gives the same response, whose map center
    is absent when nothing is found. *)
Theorem empty_user_location_is_absent (W : World) (wanted : value)
    (bias : option string) (text : string) :
  search_places W wanted bias (Some []) = search_places W wanted bias None /\
  search_locations W {| query := text; user_location := Some [] |}
  = search_locations W {| query := text; user_location := None |}.
Proof.
  assert (Hsearch : forall q b, search_places W q b (Some []) = search_places W q b None).
  { intros q b. unfold search_places.
    change (search_params W q b (Some [])) with (search_params W q b None).
    destruct (search_params W q b None) as [e | params]; cbn [bind]; [reflexivity |].
    destruct (http_get W search_url params) as [e | data]; cbn [bind]; [reflexivity |].
    destruct (getitem data "status") as [e | status]; cbn [bind]; [reflexivity |].
    destruct (ne_str status "OK"); [reflexivity |].
    destruct (dict_get data "results" (VList [])) as [e | results]; cbn [bind];
      [reflexivity |].
    destruct (iter_slice_to results (MAX_LOCATIONS_RETURNED (settings W)))
      as [e | places]; cbn [bind]; [reflexivity |].
    rewrite for_each_place_empty_dict. reflexivity. }
  split; [apply Hsearch |].
  unfold search_locations.
  cbn [query user_location].
  destruct (extract_location_intent W text) as [e | extracted]; cbn [bind];
    [reflexivity |].
  destruct (dict_get extracted "formatted_query" (VStr text)) as [e | fq]; cbn [bind];
    [reflexivity |].
  rewrite Hsearch.
  destruct (search_places W fq None None) as [e | locs]; cbn [bind]; [reflexivity |].
  destruct locs; reflexivity.
Qed.

(** X8. Once the request is built, every failure of the search is the
    one exception whose message starts with "Error searching places: ":
    a failed round trip adds the text of its exception, a provider
    status other than "OK" adds "Google Places API error: " and the
    status. *)
Theorem search_places_failures_are_wrapped (W : World) (wanted : value)
    (bias : option string) (ul : option coords) (params : list (string * value)) :
  search_params W wanted bias ul = inr params ->
  (forall e,
     search_places W wanted bias ul = inl e ->
     exists msg, e = PlainException ("Error searching places: " ++ msg)) /\
  (forall e,
     http_get W search_url params = inl e ->
     search_places W wanted bias ul
     = inl (PlainException ("Error searching places: " ++ exn_str e))) /\
  (forall data status,
     http_get W search_url params = inr data ->
     getitem data "status" = inr status ->
     ne_str status "OK" = true ->
     search_places W wanted bias ul
     = inl (PlainException ("Error searching places: Google Places API error: "
                            ++ py_str W status))).
Proof.
  intros Hparams. unfold search_places. rewrite Hparams. cbn [bind].
  split; [| split].
  - intros e. unfold try_except.
    match goal with
    | |- match ?body with inl _ => _ | inr _ => _ end = _ -> _ =>
        destruct body as [e0 | locs]
    end; [| discriminate].
    intros H. injection H as <-. eexists. reflexivity.
  - intros e Hget. rewrite Hget. reflexivity.
  - intros data status Hget Hst Hne. rewrite Hget. cbn [bind].
    rewrite Hst. cbn [bind]. rewrite Hne.
    rewrite (getitem_dict_get _ _ _ _ Hst). reflexivity.
Qed.

Lemma search_places_failures_are_wrapped_witness :
  (forall e,
     search_places (Sample.world 5 (ret Sample.intent)
                      (ret (VDict [("status", VStr "REQUEST_DENIED")])))
       (VStr "coffee") None None = inl e ->
     exists msg, e = PlainException ("Error searching places: " ++ msg)) /\
  search_places (Sample.world 5 (ret Sample.intent) (raise (RequestError "timed out")))
    (VStr "coffee") None None
  = inl (PlainException "Error searching places: timed out") /\
  search_places (Sample.world 5 (ret Sample.intent)
                   (ret (VDict [("status", VStr "REQUEST_DENIED")])))
    (VStr "coffee") None None
  = inl (PlainException
           "Error searching places: Google Places API error: REQUEST_DENIED").
Proof.
  split; [| split].
  - apply (proj1 (search_places_failures_are_wrapped
                    (Sample.world 5 (ret Sample.intent)
                       (ret (VDict [("status", VStr "REQUEST_DENIED")])))
                    (VStr "coffee") None None _ eq_refl)).
  - apply (proj1 (proj2 (search_places_failures_are_wrapped
                           (Sample.world 5 (ret Sample.intent)
                              (raise (RequestError "timed out")))
                           (VStr "coffee") None None _ eq_refl))
             (RequestError "timed out") eq_refl).
  - apply (proj2 (proj2 (search_places_failures_are_wrapped
                           (Sample.world 5 (ret Sample.intent)
                              (ret (VDict [("status", VStr "REQUEST_DENIED")])))
                           (VStr "coffee") None None _ eq_refl))
             _ (VStr "REQUEST_DENIED") eq_refl eq_refl eq_refl).
Defined.

(** X9. A negative [MAX_LOCATIONS_RETURNED] does not cap the result:
    the slice then drops that many raw results from the end, and a
    successful search returns a record for each of the others, in the
    provider's order. *)
Theorem negative_cap_drops_from_the_end (W : World) (wanted : value)
    (bias : option string) (ul : option coords) (params : list (string * value))
    (data : value) (raw : list value) (locs : list LocationInfo) :
  MAX_LOCATIONS_RETURNED (settings W) < 0 ->
  search_params W wanted bias ul = inr params ->
  http_get W search_url params = inr data ->
  dict_get data "results" (VList []) = inr (VList raw) ->
  search_places W wanted bias ul = inr locs ->
  List.length locs
  = (List.length raw - Z.to_nat (- MAX_LOCATIONS_RETURNED (settings W)))%nat /\
  Forall2 (fun place info => location_of_place W ul place = inr info)
    (firstn (List.length raw - Z.to_nat (- MAX_LOCATIONS_RETURNED (settings W))) raw)
    locs.
Proof.
  intros Hcap Hparams Hget Hraw H.
  destruct (search_places_inr W wanted bias ul locs H)
    as (params' & data' & results & places & Hp & Hg & Hr & Hit & Hall).
  rewrite Hparams in Hp. injection Hp as <-.
  rewrite Hget in Hg. injection Hg as <-.
  rewrite Hraw in Hr. injection Hr as <-.
  cbn [iter_slice_to] in Hit. unfold slice_to, ret in Hit.
  destruct (Z.leb_spec 0 (MAX_LOCATIONS_RETURNED (settings W))); [lia |].
  injection Hit as <-.
  split; [| exact Hall].
  rewrite <- (Forall2_length Hall), length_firstn. lia.
Qed.

Lemma negative_cap_drops_from_the_end_witness :
  exists locs,
    search_places (Sample.healthy (-1) Sample.three_places) (VStr "coffee") None None
    = inr locs /\
    List.length locs = 2%nat /\
    Forall2 (fun place info =>
               location_of_place (Sample.healthy (-1) Sample.three_places) None place
               = inr info)
      (firstn 2 Sample.three_places) locs.
Proof.
  eexists. split; [reflexivity |].
  apply (negative_cap_drops_from_the_end (Sample.healthy (-1) Sample.three_places)
           (VStr "coffee") None None _ _ Sample.three_places _
           eq_refl eq_refl eq_refl eq_refl eq_refl).
Defined.

(** X10. A raw result that holds only its coordinate becomes a record
    with the name "Unknown", the address "Address not available", an
    empty place id, the coordinate map link and no optional field,
    when the validators leave strings and floats as they are. *)
Theorem bare_result_gets_defaults (W : World) (p : list (string * value)) (la ln : R) :
  (forall s, validate_str (pydantic W) (VStr s) = Some s) ->
  (forall x, validate_float (pydantic W) (VFloat x) = Some x) ->
  geometry_location (VDict p) "lat" = inr (VFloat la) ->
  geometry_location (VDict p) "lng" = inr (VFloat ln) ->
  assoc "name" p = None ->
  assoc "formatted_address" p = None ->
  assoc "place_id" p = None ->
  assoc "rating" p = None ->
  assoc "opening_hours" p = None ->
  assoc "international_phone_number" p = None ->
  assoc "website" p = None ->
  assoc "price_level" p = None ->
  location_of_place W None (VDict p)
  = inr {| name := "Unknown";
           address := "Address not available";
           place_id := "";
           rating := None;
           maps_url := "https://www.google.com/maps/@" ++ py_str W (VFloat la) ++ ","
                       ++ py_str W (VFloat ln) ++ ",15z";
           lat := la;
           lng := ln;
           distance := None;
           opening_hours := None;
           phone_number := None;
           website := None;
           price_level := None |}.
Proof.
  intros Hstr Hfloat Hlat Hlng Hname Haddr Hid Hrating Hhours Hphone Hweb Hprice.
  unfold location_of_place. rewrite Hlat. cbn [bind]. rewrite Hlng.
  cbn [bind supplied ret dict_get].
  rewrite Hname, Haddr, Hid, Hrating, Hhours, Hphone, Hweb, Hprice.
  cbn [bind ret dict_get assoc validated_opt].
  unfold validated. rewrite !Hstr, !Hfloat. reflexivity.
Qed.

Lemma bare_result_gets_defaults_witness :
  location_of_place (Sample.healthy 5 []) None
    (VDict [("geometry", VDict [("location", VDict [("lat", VFloat 0); ("lng", VFloat 2)])])])
  = inr {| name := "Unknown";
           address := "Address not available";
           place_id := "";
           rating := None;
           maps_url := "https://www.google.com/maps/@<float>,<float>,15z";
           lat := 0%R;
           lng := 2%R;
           distance := None;
           opening_hours := None;
           phone_number := None;
           website := None;
           price_level := None |}.
Proof.
  apply (bare_result_gets_defaults (Sample.healthy 5 [])
           [("geometry", VDict [("location", VDict [("lat", VFloat 0); ("lng", VFloat 2)])])]
           0%R 2%R); reflexivity.
Defined.

(** ** Directions, continued *)



(** X12. In every response of [get_directions], a failure carries no
    routes, duration or distance, and a success carries the routes and
    the message "Directions found". *)
Theorem directions_response_shape (W : World) (origin : coords)
    (destination travel_mode : string) (response : DirectionsResponse) :
  get_directions W origin destination travel_mode = inr response ->
  (dr_success response = false ->
   dr_routes response = None /\ dr_duration response = None /\
   dr_distance response = None) /\
  (dr_success response = true ->
   dr_routes response <> None /\ dr_message response = "Directions found").
Proof.
  unfold get_directions. intros H.
  bind_as H olat Holat. bind_as H olng Holng. cbv zeta in H.
  unfold try_except in H.
  destruct (fetch_directions W (directions_params W olat olng destination travel_mode))
    as [e | r] eqn:Hfetch.
  - injection H as <-. split; [auto | discriminate].
  - injection H as <-. unfold fetch_directions in Hfetch.
    bind_as Hfetch data Hget. bind_as Hfetch status Hst.
    destruct (ne_str status "OK").
    { bind_as Hfetch status' Hst'. injection Hfetch as <-.
      split; [auto | discriminate]. }
    bind_as Hfetch routes Hroutes.
    destruct (negb (truthy routes)) eqn:Htruthy.
    { injection Hfetch as <-. split; [auto | discriminate]. }
    bind_as Hfetch routes' Hroutes'. bind_as Hfetch route Hroute.
    bind_as Hfetch legs Hlegs. bind_as Hfetch leg Hleg.
    bind_as Hfetch v_routes Hv. do 4 bind_inv Hfetch.
    bind_as Hfetch f_routes Hf. do 2 bind_inv Hfetch.
    injection Hfetch as <-. cbn [dr_success dr_routes dr_message].
    split; [discriminate |]. intros _. split; [| reflexivity].
    rewrite (getitem_dict_get _ _ _ VNone Hv) in Hroutes. injection Hroutes as <-.
    unfold validated_opt in Hf.
    destruct v_routes; try discriminate; bind_inv Hf; injection Hf as <-; discriminate.
Qed.

Lemma directions_response_shape_witness :
  exists response,
    get_directions (Sample.world 5 (ret Sample.intent)
                      (ret (Sample.directions_body "OK" [Sample.route])))
      Sample.here "place_id:abc" "DRIVING" = inr response /\
    (dr_success response = false ->
     dr_routes response = None /\ dr_duration response = None /\
     dr_distance response = None) /\
    (dr_success response = true ->
     dr_routes response <> None /\ dr_message response = "Directions found").
Proof.
  eexists. split; [reflexivity |].
  apply (directions_response_shape
           (Sample.world 5 (ret Sample.intent)
              (ret (Sample.directions_body "OK" [Sample.route])))
           Sample.here "place_id:abc" "DRIVING" _ eq_refl).
Defined.

Lemma lower_ascii_idempotent (c : ascii) : lower_ascii (lower_ascii c) = lower_ascii c.
Proof.
  destruct c as [[] [] [] [] [] [] [] []]; reflexivity.
Qed.

Lemma lower_idempotent (s : string) : lower (lower s) = lower s.
Proof.
  induction s as [| c s IH]; [reflexivity |].
  cbn [lower]. rewrite lower_ascii_idempotent, IH. reflexivity.
Qed.

(** X13. The travel mode only counts up to letter case: two modes
    with the same lower-case form give the same request and the same
    result, and a mode gives what its lower-case form gives. *)
Theorem travel_mode_ignores_case (W : World) (origin : coords)
    (destination mode1 mode2 : string) :
  (lower mode1 = lower mode2 ->
   get_directions W origin destination mode1 = get_directions W origin destination mode2) /\
  get_directions W origin destination (lower mode1)
  = get_directions W origin destination mode1.
Proof.
  assert (Hsame : forall m1 m2, lower m1 = lower m2 ->
            get_directions W origin destination m1
            = get_directions W origin destination m2).
  { intros m1 m2 Heq. unfold get_directions, directions_params. rewrite Heq. reflexivity. }
  split; [apply Hsame |]. apply Hsame, lower_idempotent.
Qed.

Lemma travel_mode_ignores_case_witness :
  get_directions (Sample.healthy 5 []) Sample.here "place_id:abc" "Driving"
  = get_directions (Sample.healthy 5 []) Sample.here "place_id:abc" "DRIVING".
Proof.
  apply (proj1 (travel_mode_ignores_case (Sample.healthy 5 []) Sample.here "place_id:abc"
                  "Driving" "DRIVING")).
  reflexivity.
Defined.

(** ** Intent extraction, continued *)

(** X14. [extract_location_intent] raises nothing, and what it
    returns is one of two things: the decoding of the content of the
    model's reply to this query, when every membership test of the
    four required fields succeeds on it, or else the degraded intent
    for the user query, whose diagnostic is the text of the exception
    that the [try] block raised, after "JSON parsing error: " for a
    JSON decoding error and after "LLM service error: " for any
    other. *)
Theorem extract_returns_reply_or_fallback (W : World) (user_query : string) :
  exists v,
    extract_location_intent W user_query = inr v /\
    ((exists reply message content,
        http_post W (chat_url W) (chat_payload W user_query) = inr reply /\
        getitem reply "message" = inr message /\
        getitem message "content" = inr (VStr content) /\
        json_loads W content = inr v /\
        all_in required_fields v = inr true) \/
     (exists e,
        request_intent W user_query = inl e /\
        v = fallback_intent user_query
              ((if is_JSONDecodeError e then "JSON parsing error: "
                else "LLM service error: ") ++ exn_str e))).
Proof.
  unfold extract_location_intent, try_except.
  destruct (request_intent W user_query) as [e | v] eqn:H.
  - exists (fallback_intent user_query
              ((if is_JSONDecodeError e then "JSON parsing error: "
                else "LLM service error: ") ++ exn_str e)).
    split; [destruct (is_JSONDecodeError e); reflexivity |].
    right. exists e. split; reflexivity.
  - exists v. split; [reflexivity |]. left.
    unfold request_intent in H.
    bind_as H reply Hpost. bind_as H msg Hmsg. bind_as H content Hcontent.
    bind_as H extracted Hloads. bind_as H ok Hok.
    destruct ok; [| discriminate]. injection H as <-.
    unfold loads in Hloads. destruct content; try discriminate.
    exists reply, msg, s. auto.
Qed.

(** X15. A reply that is no container degrades: when the content
    decodes to null, a boolean or a number, or when the content of the
    message is not a string at all, the result is the degraded intent
    with the [TypeError] of Python as its diagnostic. *)
Theorem scalar_reply_degrades (W : World) (user_query : string)
    (reply message content : value) :
  http_post W (chat_url W) (chat_payload W user_query) = inr reply ->
  getitem reply "message" = inr message ->
  getitem message "content" = inr content ->
  (forall text v,
     content = VStr text ->
     json_loads W text = inr v ->
     v = VNone \/ (exists b, v = VBool b) \/ (exists z, v = VInt z)
     \/ (exists x, v = VFloat x) ->
     extract_location_intent W user_query
     = inr (fallback_intent user_query
              ("LLM service error: argument of type '" ++ type_name v
               ++ "' is not iterable"))) /\
  ((forall text, content <> VStr text) ->
   extract_location_intent W user_query
   = inr (fallback_intent user_query
            ("LLM service error: the JSON object must be str, bytes or bytearray, not "
             ++ type_name content))).
Proof.
  intros Hpost Hmsg Hcontent.
  unfold extract_location_intent, request_intent.
  rewrite Hpost. cbn [bind]. rewrite Hmsg. cbn [bind]. rewrite Hcontent. cbn [bind].
  split.
  - intros text v -> Hloads Hscalar. cbn [loads]. rewrite Hloads. cbn [bind].
    destruct Hscalar as [-> | [[b ->] | [[z ->] | [x ->]]]]; reflexivity.
  - intros Hnot. destruct content; try reflexivity.
    exfalso. exact (Hnot s eq_refl).
Qed.

Lemma scalar_reply_degrades_witness :
  extract_location_intent (Sample.world 5 (ret (VInt 7)) (ret VNone)) "coffee near me"
  = inr (fallback_intent "coffee near me"
           "LLM service error: argument of type 'int' is not iterable").
Proof.
  apply (proj1 (scalar_reply_degrades (Sample.world 5 (ret (VInt 7)) (ret VNone))
                  "coffee near me" _ _ (VStr "<reply>") eq_refl eq_refl eq_refl)
           "<reply>" (VInt 7) eq_refl eq_refl).
  right. right. left. exists 7. reflexivity.
Defined.

(** X16. A reply that decodes to a JSON object is returned unchanged,
    with every other field it holds, exactly when it has the four
    required fields; an object that lacks one of them gives the
    degraded intent. *)
Theorem object_reply_kept_iff_complete (W : World) (user_query : string)
    (reply message : value) (content : string) (d : list (string * value)) :
  http_post W (chat_url W) (chat_payload W user_query) = inr reply ->
  getitem reply "message" = inr message ->
  getitem message "content" = inr (VStr content) ->
  json_loads W content = inr (VDict d) ->
  (is_intent (VDict d) = true ->
   extract_location_intent W user_query = inr (VDict d)) /\
  (is_intent (VDict d) = false ->
   extract_location_intent W user_query
   = inr (fallback_intent user_query
            "LLM service error: Missing required fields in LLM response")).
Proof.
  intros Hpost Hmsg Hcontent Hloads.
  destruct (extract_location_intent_object W user_query reply message content d
              Hpost Hmsg Hcontent Hloads) as [Hmissing Hall].
  unfold is_intent. split.
  - intros Hint. apply Hall. intros field Hin Hnone.
    rewrite forallb_forall in Hint. specialize (Hint field Hin).
    rewrite Hnone in Hint. discriminate.
  - intros Hint.
    assert (Hex : exists field, In field required_fields /\ assoc field d = None).
    { apply not_true_iff_false in Hint. rewrite forallb_forall in Hint.
      destruct (existsb (fun f => match assoc f d with Some _ => false | None => true end)
                  required_fields) eqn:Hexists.
      - apply existsb_exists in Hexists. destruct Hexists as (field & Hin & Hf).
        exists field. split; [assumption |]. destruct (assoc field d); congruence.
      - exfalso. apply Hint. intros field Hin.
        destruct (assoc field d) eqn:Hf; [reflexivity |].
        assert (Hcontra : existsb
                  (fun f => match assoc f d with Some _ => false | None => true end)
                  required_fields = true).
        { apply existsb_exists. exists field. rewrite Hf. auto. }
        congruence. }
    destruct Hex as (field & Hin & Hnone). exact (Hmissing field Hin Hnone).
Qed.

Lemma object_reply_kept_iff_complete_witness :
  extract_location_intent
    (Sample.world 5
       (ret (VDict [("search_term", VStr "coffee"); ("location", VStr "near me");
                    ("query_type", VStr "search"); ("formatted_query", VStr "coffee near me");
                    ("confidence", VFloat 1)]))
       (ret VNone)) "coffee near me"
  = inr (VDict [("search_term", VStr "coffee"); ("location", VStr "near me");
                ("query_type", VStr "search"); ("formatted_query", VStr "coffee near me");
                ("confidence", VFloat 1)]) /\
  extract_location_intent (Sample.world 5 (ret Sample.partial_reply) (ret VNone))
    "coffee near me"
  = inr (fallback_intent "coffee near me"
           "LLM service error: Missing required fields in LLM response").
Proof.
  split.
  - apply (proj1 (object_reply_kept_iff_complete
                    (Sample.world 5
                       (ret (VDict [("search_term", VStr "coffee");
                                    ("location", VStr "near me");
                                    ("query_type", VStr "search");
                                    ("formatted_query", VStr "coffee near me");
                                    ("confidence", VFloat 1)]))
                       (ret VNone))
                    "coffee near me" _ _ "<reply>" _ eq_refl eq_refl eq_refl eq_refl)).
    reflexivity.
  - apply (proj2 (object_reply_kept_iff_complete
                    (Sample.world 5 (ret Sample.partial_reply) (ret VNone))
                    "coffee near me" _ _ "<reply>" _ eq_refl eq_refl eq_refl eq_refl)).
    reflexivity.
Defined.

(** X17. Whenever the extractor returns a JSON object, the object
    holds the four required fields; so the default of
    [extracted_info.get("formatted_query", query.query)] in the endpoint
    is never used. *)
Theorem extracted_object_is_intent (W : World) (user_query : string)
    (d : list (string * value)) (default : value) :
  extract_location_intent W user_query = inr (VDict d) ->
  is_intent (VDict d) = true /\
  dict_get (VDict d) "formatted_query" default = getitem (VDict d) "formatted_query".
Proof.
  intros H.
  assert (Hint : is_intent (VDict d) = true).
  { unfold extract_location_intent, try_except in H.
    destruct (request_intent W user_query) as [e | v] eqn:Hreq.
    - destruct (is_JSONDecodeError e); injection H as <-; reflexivity.
    - injection H as ->. unfold request_intent in Hreq.
      do 4 bind_inv Hreq. bind_as Hreq ok Hok.
      destruct ok; [| discriminate]. injection Hreq as ->.
      unfold required_fields, all_in, py_in, ret in Hok. cbn [bind] in Hok.
      unfold is_intent, required_fields. cbn [forallb].
      repeat match type of Hok with
             | context [assoc ?k d] => destruct (assoc k d); [| discriminate]
             end.
      reflexivity. }
  split; [exact Hint |].
  unfold is_intent, required_fields in Hint. cbn [forallb] in Hint.
  unfold dict_get, getitem.
  destruct (assoc "formatted_query" d); [reflexivity |].
  rewrite !andb_false_r in Hint. discriminate.
Qed.

Lemma extracted_object_is_intent_witness :
  is_intent Sample.intent = true /\
  dict_get Sample.intent "formatted_query" (VStr "coffee near me")
  = getitem Sample.intent "formatted_query".
Proof.
  apply (extracted_object_is_intent (Sample.healthy 5 []) "coffee near me"
           [("search_term", VStr "coffee"); ("location", VStr "near me");
            ("query_type", VStr "search"); ("formatted_query", VStr "coffee near me")]
           (VStr "coffee near me") eq_refl).
Defined.

(** ** The search endpoint, continued *)

(** X18. Every failure of the search endpoint is a response with
    status 500 whose detail is "Error processing your request: "
    followed by the text of the exception; the exception is raised
    either by reading [formatted_query] from an extraction result that
    is no object, or by the place search.  The extractor itself is
    never the cause. *)
Theorem search_failure_is_500 (W : World) (q : LocationQuery) (h : HTTPException) :
  search_locations W q = inl h ->
  status_code h = 500 /\
  exists extracted e,
    extract_location_intent W (query q) = inr extracted /\
    detail h = "Error processing your request: " ++ exn_str e /\
    (dict_get extracted "formatted_query" (VStr (query q)) = inl e \/
     exists fq,
       dict_get extracted "formatted_query" (VStr (query q)) = inr fq /\
       search_places W fq None (user_location q) = inl e).
Proof.
  unfold search_locations. intros H.
  destruct (extract_location_intent_total W (query q)) as [extracted Hx].
  rewrite Hx in H. cbn [bind] in H.
  destruct (dict_get extracted "formatted_query" (VStr (query q))) as [e | fq] eqn:Hfq;
    cbn [bind] in H.
  - injection H as <-. split; [reflexivity |]. exists extracted, e. auto.
  - destruct (search_places W fq None (user_location q)) as [e | locs] eqn:Hs;
      cbn [bind] in H.
    + injection H as <-. split; [reflexivity |]. exists extracted, e.
      split; [exact Hx |]. split; [reflexivity |]. right. exists fq. auto.
    + destruct locs; discriminate.
Qed.

Lemma search_failure_is_500_witness :
  exists h,
    search_locations
      (Sample.world 5 (ret Sample.intent) (ret (VDict [("status", VStr "REQUEST_DENIED")])))
      Sample.downtown = inl h /\
    status_code h = 500 /\
    detail h = "Error processing your request: Error searching places: Google Places API error: REQUEST_DENIED".
Proof.
  eexists. split; [reflexivity |].
  split; [| reflexivity].
  apply (search_failure_is_500
           (Sample.world 5 (ret Sample.intent)
              (ret (VDict [("status", VStr "REQUEST_DENIED")])))
           Sample.downtown _ eq_refl).
Defined.

Lemma slice_to_nil {A} (n : Z) : slice_to (@nil A) n = [].
Proof.
  unfold slice_to. destruct (0 <=? n); apply firstn_nil.
Qed.

(** X19. A provider that answers "OK" with no result is not a
    failure: the endpoint returns the response with [success = false],
    the message "No locations found for your query", no location, no
    search radius, and the user location (when supplied) as the map
    center. *)
Theorem empty_result_is_a_response (W : World) (q : LocationQuery)
    (extracted fq data : value) (params : list (string * value)) :
  extract_location_intent W (query q) = inr extracted ->
  dict_get extracted "formatted_query" (VStr (query q)) = inr fq ->
  search_params W fq None (user_location q) = inr params ->
  http_get W search_url params = inr data ->
  getitem data "status" = inr (VStr "OK") ->
  dict_get data "results" (VList []) = inr (VList []) ->
  search_locations W q
  = inr {| success := false;
           message := "No locations found for your query";
           locations := [];
           extracted_info := Some extracted;
           map_center := if supplied (user_location q) then user_location q else None;
           search_radius := None |}.
Proof.
  intros Hx Hfq Hparams Hget Hst Hres.
  unfold search_locations, search_places.
  rewrite Hx. cbn [bind]. rewrite Hfq. cbn [bind]. rewrite Hparams. cbn [bind].
  rewrite Hget. cbn [bind]. rewrite Hst. cbn [bind ne_str String.eqb Ascii.eqb Bool.eqb negb].
  rewrite Hres. cbn [bind iter_slice_to ret]. rewrite slice_to_nil. reflexivity.
Qed.

Lemma empty_result_is_a_response_witness :
  search_locations (Sample.healthy 5 []) Sample.nearby
  = inr {| success := false;
           message := "No locations found for your query";
           locations := [];
           extracted_info := Some Sample.intent;
           map_center := Some Sample.here;
           search_radius := None |}.
Proof.
  apply (empty_result_is_a_response (Sample.healthy 5 []) Sample.nearby
           Sample.intent (VStr "coffee near me") (Sample.places_body []) _
           eq_refl eq_refl eq_refl eq_refl eq_refl eq_refl).
Defined.

(** X20. When the round trip to the model fails, the endpoint still
    searches: it looks for the raw text of the query and reports the
    degraded intent in [extracted_info]. *)
Theorem model_failure_searches_raw_query (W : World) (q : LocationQuery) (e : exn)
    (locs : list LocationInfo) :
  request_intent W (query q) = inl e ->
  search_places W (VStr (query q)) None (user_location q) = inr locs ->
  exists r diagnostic,
    search_locations W q = inr r /\
    locations r = locs /\
    extracted_info r = Some (fallback_intent (query q) diagnostic).
Proof.
  intros Hreq Hs.
  destruct (extract_location_intent_fallback W (query q) e Hreq) as [label Hx].
  unfold search_locations. rewrite Hx. cbn [bind fallback_intent dict_get assoc String.eqb].
  cbn. rewrite Hs. cbn [bind].
  destruct locs; eexists; eexists; (split; [reflexivity |]); split; reflexivity.
Qed.

Lemma model_failure_searches_raw_query_witness :
  exists r diagnostic,
    search_locations
      (Sample.world 5 (raise (JSONDecodeError "Expecting value"))
         (ret (Sample.places_body Sample.three_places)))
      Sample.downtown = inr r /\
    List.length (locations r) = 3%nat /\
    extracted_info r = Some (fallback_intent "coffee near me" diagnostic).
Proof.
  destruct (model_failure_searches_raw_query
              (Sample.world 5 (raise (JSONDecodeError "Expecting value"))
                 (ret (Sample.places_body Sample.three_places)))
              Sample.downtown (JSONDecodeError "Expecting value") _ eq_refl eq_refl)
    as (r & diagnostic & Hrun & Hlocs & Hinfo).
  exists r, diagnostic. rewrite Hlocs. auto.
Defined.

(** ** Geocoding *)

Lemma getitem0_truthy (v top : value) : getitem0 v = inr top -> truthy v = true.
Proof.
  destruct v as [| | | | s | l | d]; try discriminate.
  - destruct s; [discriminate | reflexivity].
  - destruct l; [discriminate | reflexivity].
Qed.

(** X21. [geocode_address] raises nothing and answers [None] on every
    failure: an exception of the round trip, a provider status other
    than "OK", an empty result list, or any exception while the first
    result is read. *)
Theorem geocode_failures_give_none (W : World) (address : string) :
  (exists answer, geocode_address W address = inr answer) /\
  (forall e, fetch_geocode W address = inl e -> geocode_address W address = inr None) /\
  (forall e,
     http_get W geocode_url (geocode_params W address) = inl e ->
     geocode_address W address = inr None) /\
  (forall data status,
     http_get W geocode_url (geocode_params W address) = inr data ->
     getitem data "status" = inr status ->
     ne_str status "OK" = true ->
     geocode_address W address = inr None) /\
  (forall data,
     http_get W geocode_url (geocode_params W address) = inr data ->
     getitem data "status" = inr (VStr "OK") ->
     getitem data "results" = inr (VList []) ->
     geocode_address W address = inr None).
Proof.
  unfold geocode_address, try_except. split; [| split; [| split; [| split]]].
  - destruct (fetch_geocode W address); eauto.
  - intros e ->. reflexivity.
  - intros e He. unfold fetch_geocode. rewrite He. reflexivity.
  - intros data status Hget Hst Hne. unfold fetch_geocode.
    rewrite Hget. cbn [bind]. rewrite Hst. cbn [bind]. rewrite Hne. reflexivity.
  - intros data Hget Hst Hres. unfold fetch_geocode.
    rewrite Hget. cbn [bind]. rewrite Hst. cbn [bind ne_str String.eqb Ascii.eqb Bool.eqb negb].
    rewrite Hres. reflexivity.
Qed.

Lemma geocode_failures_give_none_witness :
  geocode_address (Sample.world 5 (ret Sample.intent) (raise (RequestError "timed out")))
    "Taipei 101" = inr None /\
  geocode_address (Sample.world 5 (ret Sample.intent)
                     (ret (VDict [("status", VStr "ZERO_RESULTS"); ("results", VList [])])))
    "Taipei 101" = inr None /\
  geocode_address (Sample.world 5 (ret Sample.intent) (ret (Sample.places_body [])))
    "Taipei 101" = inr None.
Proof.
  split; [| split].
  - apply (proj1 (proj2 (proj2 (geocode_failures_give_none
                                  (Sample.world 5 (ret Sample.intent)
                                     (raise (RequestError "timed out")))
                                  "Taipei 101")))
             (RequestError "timed out") eq_refl).
  - apply (proj1 (proj2 (proj2 (proj2 (geocode_failures_give_none
                                         (Sample.world 5 (ret Sample.intent)
                                            (ret (VDict [("status", VStr "ZERO_RESULTS");
                                                         ("results", VList [])])))
                                         "Taipei 101"))))
             _ (VStr "ZERO_RESULTS") eq_refl eq_refl eq_refl).
  - apply (proj2 (proj2 (proj2 (proj2 (geocode_failures_give_none
                                         (Sample.world 5 (ret Sample.intent)
                                            (ret (Sample.places_body [])))
                                         "Taipei 101"))))
             _ eq_refl eq_refl eq_refl).
Defined.

(** X22. [geocode_address] answers with a coordinate exactly when the
    provider's status is "OK" and the first result holds [lat], [lng]
    and [formatted_address]; the answer is the dict of these three
    values and of nothing else. *)
Theorem geocode_answer_is_first_result (W : World) (address : string) (answer : value) :
  geocode_address W address = inr (Some answer) <->
  exists data results top r_lat r_lng formatted,
    http_get W geocode_url (geocode_params W address) = inr data /\
    getitem data "status" = inr (VStr "OK") /\
    getitem data "results" = inr results /\
    getitem0 results = inr top /\
    geometry_location top "lat" = inr r_lat /\
    geometry_location top "lng" = inr r_lng /\
    getitem top "formatted_address" = inr formatted /\
    answer = VDict [("lat", r_lat); ("lng", r_lng); ("formatted_address", formatted)].
Proof.
  unfold geocode_address, try_except. split.
  - intros H.
    destruct (fetch_geocode W address) as [e | r] eqn:Hfetch; [discriminate |].
    injection H as ->. unfold fetch_geocode in Hfetch.
    bind_as Hfetch data Hget. bind_as Hfetch status Hst.
    destruct (ne_str status "OK") eqn:Hne; [discriminate |]. cbn [negb] in Hfetch.
    bind_as Hfetch results Hres.
    destruct (truthy results); [| discriminate].
    bind_as Hfetch results' Hres'. bind_as Hfetch top Hfirst.
    bind_as Hfetch r_lat Hlat. bind_as Hfetch r_lng Hlng.
    bind_as Hfetch formatted Hfa. injection Hfetch as <-.
    rewrite Hres in Hres'. injection Hres' as <-.
    assert (Hok : status = VStr "OK").
    { destruct status; try discriminate. cbn [ne_str] in Hne.
      destruct (String.eqb_spec s "OK"); [congruence | discriminate]. }
    subst status.
    exists data, results, top, r_lat, r_lng, formatted. auto 10.
  - intros (data & results & top & r_lat & r_lng & formatted
            & Hget & Hst & Hres & Hfirst & Hlat & Hlng & Hfa & ->).
    unfold fetch_geocode. rewrite Hget. cbn [bind]. rewrite Hst.
    cbn [bind ne_str String.eqb Ascii.eqb Bool.eqb negb].
    rewrite Hres. cbn [bind]. rewrite (getitem0_truthy _ _ Hfirst).
    rewrite Hfirst. cbn [bind]. rewrite Hlat. cbn [bind]. rewrite Hlng. cbn [bind].
    rewrite Hfa. reflexivity.
Qed.

Lemma geocode_answer_is_first_result_witness :
  geocode_address (Sample.world 5 (ret Sample.intent)
                     (ret (Sample.places_body [Sample.geocode_result])))
    "Taipei 101"
  = inr (Some (VDict [("lat", VFloat 25); ("lng", VFloat 121);
                      ("formatted_address", VStr "Taipei 101, Xinyi District")])).
Proof.
  apply (proj2 (geocode_answer_is_first_result
                  (Sample.world 5 (ret Sample.intent)
                     (ret (Sample.places_body [Sample.geocode_result])))
                  "Taipei 101" _)).
  exists (Sample.places_body [Sample.geocode_result]), (VList [Sample.geocode_result]),
    Sample.geocode_result, (VFloat 25), (VFloat 121), (VStr "Taipei 101, Xinyi District").
  repeat split.
Defined.

(** ** The directions endpoint *)

(** X23. A request with a complete origin and a travel mode never
    gets a 500 from the directions endpoint: the answer is a
    [DirectionsResponse], and a failed round trip to the provider is
    reported in it with [success = false]. *)
Theorem directions_endpoint_soft_failure (W : World) (request : DirectionsRequest)
    (olat olng : R) (mode : string) :
  assoc "lat" (dq_origin request) = Some olat ->
  assoc "lng" (dq_origin request) = Some olng ->
  dq_travel_mode request = Some mode ->
  (exists response, directions_endpoint W request = inr response) /\
  (forall e,
     http_get W directions_url
       (directions_params W olat olng (dq_destination request) mode) = inl e ->
     directions_endpoint W request
     = inr (failed_directions ("Error getting directions: " ++ exn_str e))).
Proof.
  intros Hlat Hlng Hmode.
  unfold directions_endpoint, call_get_directions, get_directions.
  rewrite Hmode, (coord_Some _ "lat" olat Hlat), (coord_Some _ "lng" olng Hlng).
  cbn [bind]. unfold try_except. split.
  - destruct (fetch_directions W
                (directions_params W olat olng (dq_destination request) mode));
      eexists; reflexivity.
  - intros e He. unfold fetch_directions. rewrite He. reflexivity.
Qed.

Lemma directions_endpoint_soft_failure_witness :
  (exists response,
     directions_endpoint
       (Sample.world 5 (ret Sample.intent) (raise (RequestError "timed out")))
       {| dq_origin := Sample.here; dq_destination := "place_id:abc";
          dq_travel_mode := Some "DRIVING" |} = inr response) /\
  directions_endpoint
    (Sample.world 5 (ret Sample.intent) (raise (RequestError "timed out")))
    {| dq_origin := Sample.here; dq_destination := "place_id:abc";
       dq_travel_mode := Some "DRIVING" |}
  = inr (failed_directions "Error getting directions: timed out").
Proof.
  destruct (directions_endpoint_soft_failure
              (Sample.world 5 (ret Sample.intent) (raise (RequestError "timed out")))
              {| dq_origin := Sample.here; dq_destination := "place_id:abc";
                 dq_travel_mode := Some "DRIVING" |}
              0%R 1%R "DRIVING" eq_refl eq_refl eq_refl) as [Hsome Hdown].
  split; [exact Hsome |]. exact (Hdown (RequestError "timed out") eq_refl).
Defined.

(** X24. The directions endpoint answers 500 exactly when the origin
    lacks [lat] or [lng] or the travel mode is null; for a complete
    origin with a null travel mode the detail names the missing
    [lower]. *)
Theorem directions_endpoint_500 (W : World) (request : DirectionsRequest) :
  ((exists h, directions_endpoint W request = inl h) <->
   assoc "lat" (dq_origin request) = None \/
   assoc "lng" (dq_origin request) = None \/
   dq_travel_mode request = None) /\
  (forall h, directions_endpoint W request = inl h -> status_code h = 500) /\
  (assoc "lat" (dq_origin request) <> None ->
   assoc "lng" (dq_origin request) <> None ->
   dq_travel_mode request = None ->
   directions_endpoint W request
   = inl {| status_code := 500;
            detail := "Error getting directions: 'NoneType' object has no attribute 'lower'" |}).
Proof.
  unfold directions_endpoint, call_get_directions, get_directions, coord.
  destruct (dq_travel_mode request) as [mode |];
    destruct (assoc "lat" (dq_origin request)) as [olat |];
    destruct (assoc "lng" (dq_origin request)) as [olng |];
    cbn [bind ret raise]; unfold try_except;
    try match goal with
        | |- context [fetch_directions ?w ?p] => destruct (fetch_directions w p)
        end;
    (split; [| split];
     [ split;
       [ intros [h Hh]; try discriminate Hh; auto
       | intros [Hc | [Hc | Hc]]; try discriminate Hc; eexists; reflexivity ]
     | intros h Hh; try discriminate Hh; injection Hh as <-; reflexivity
     | intros Hnlat Hnlng Hmode; try congruence; reflexivity ]).
Qed.

Lemma directions_endpoint_500_witness :
  directions_endpoint (Sample.healthy 5 [])
    {| dq_origin := Sample.here; dq_destination := "place_id:abc"; dq_travel_mode := None |}
  = inl {| status_code := 500;
           detail := "Error getting directions: 'NoneType' object has no attribute 'lower'" |}.
Proof.
  apply (proj2 (proj2 (directions_endpoint_500 (Sample.healthy 5 [])
                         {| dq_origin := Sample.here; dq_destination := "place_id:abc";
                            dq_travel_mode := None |})));
    [discriminate | discriminate | reflexivity].
Defined.

(** ** Configuration and the health report *)

Lemma split_comma_not_nil (s : string) : split_comma s <> [].
Proof.
  destruct s as [| c s]; cbn [split_comma]; [discriminate |].
  destruct (Ascii.eqb c ","); [discriminate |].
  destruct (split_comma s); discriminate.
Qed.

Lemma join_comma_cons (part : string) (rest : list string) :
  rest <> [] -> join_comma (part :: rest) = part ++ "," ++ join_comma rest.
Proof.
  destruct rest; [contradiction | reflexivity].
Qed.

Lemma join_split_comma (s : string) : join_comma (split_comma s) = s.
Proof.
  induction s as [| c s IH]; [reflexivity |].
  cbn [split_comma].
  destruct (Ascii.eqb_spec c ",") as [-> | Hc].
  - rewrite join_comma_cons by apply split_comma_not_nil. rewrite IH. reflexivity.
  - pose proof (split_comma_not_nil s) as Hne.
    destruct (split_comma s) as [| head tail]; [contradiction |].
    destruct tail as [| next tail].
    + cbn [join_comma] in *. congruence.
    + change (join_comma (String c head :: next :: tail))
        with (String c (head ++ "," ++ join_comma (next :: tail))).
      change (join_comma (head :: next :: tail))
        with (head ++ "," ++ join_comma (next :: tail)) in IH.
      congruence.
Qed.

Lemma contains_comma_cons (c : ascii) (s : string) :
  c <> ","%char -> contains_str "," (String c s) = contains_str "," s.
Proof.
  intros Hc.
  change (contains_str "," (String c s))
    with (if prefix "," (String c s) then true else contains_str "," s).
  change (prefix "," (String c s))
    with (if Ascii.ascii_dec "," c then prefix "" s else false).
  destruct (Ascii.ascii_dec "," c); [congruence | reflexivity].
Qed.

Lemma split_comma_no_comma (s : string) :
  Forall (fun part => contains_str "," part = false) (split_comma s).
Proof.
  induction s as [| c s IH]; [repeat constructor |].
  cbn [split_comma].
  destruct (Ascii.eqb_spec c ",") as [-> | Hc].
  - constructor; [reflexivity | exact IH].
  - pose proof (split_comma_not_nil s) as Hne.
    destruct (split_comma s) as [| head tail]; [contradiction |].
    inversion IH as [| ? ? Hhead Htail]; subst. constructor; [| exact Htail].
    rewrite contains_comma_cons by assumption. exact Hhead.
Qed.

Lemma load_settings_inr (py_int : string -> result Z) (env : list (string * string))
    (C : Config) :
  load_settings py_int env = inr C ->
  exists requests window cap radius,
    py_int (getenv env "RATE_LIMIT_REQUESTS" "100") = inr requests /\
    py_int (getenv env "RATE_LIMIT_WINDOW" "3600") = inr window /\
    py_int (getenv env "MAX_LOCATIONS_RETURNED" "5") = inr cap /\
    py_int (getenv env "MAPS_SEARCH_RADIUS" "50000") = inr radius /\
    getenv env "GOOGLE_MAPS_API_KEY" "" <> "" /\
    getenv env "GOOGLE_MAPS_JS_API_KEY" "" <> "" /\
    C = {| core := {| GOOGLE_MAPS_API_KEY := getenv env "GOOGLE_MAPS_API_KEY" "";
                      OLLAMA_BASE_URL := getenv env "OLLAMA_BASE_URL" "http://localhost:11434";
                      OLLAMA_MODEL := getenv env "OLLAMA_MODEL" "gemma3:1b";
                      MAX_LOCATIONS_RETURNED := cap;
                      MAPS_SEARCH_RADIUS := radius |};
           GOOGLE_MAPS_JS_API_KEY := getenv env "GOOGLE_MAPS_JS_API_KEY" "";
           ALLOWED_ORIGINS :=
             split_comma (getenv env "ALLOWED_ORIGINS"
                            "http://localhost:3000,http://localhost:8080,http://127.0.0.1:5500");
           API_KEY_HEADER := "X-API-Key";
           RATE_LIMIT_REQUESTS := requests;
           RATE_LIMIT_WINDOW := window |}.
Proof.
  unfold load_settings. intros H. cbv zeta in H.
  bind_as H requests Hrequests. bind_as H window Hwindow.
  bind_as H cap Hcap. bind_as H radius Hradius.
  destruct (String.eqb_spec (getenv env "GOOGLE_MAPS_API_KEY" "") "") as [| Hkey];
    [discriminate |].
  destruct (String.eqb_spec (getenv env "GOOGLE_MAPS_JS_API_KEY" "") "") as [| Hjs];
    [discriminate |].
  injection H as <-. exists requests, window, cap, radius. auto 10.
Qed.

(** X25. The settings only load with both Google keys: a loaded
    configuration holds a non-empty server key and a non-empty browser
    key.  When the numbers of the environment parse, a server key that
    is unset or empty is refused with the message that names it, also
    when the browser key is missing too, and a missing browser key
    alone is refused with its own message. *)
Theorem settings_require_both_keys (py_int : string -> result Z)
    (env : list (string * string)) :
  (forall C,
     load_settings py_int env = inr C ->
     GOOGLE_MAPS_API_KEY (core C) <> "" /\ GOOGLE_MAPS_JS_API_KEY C <> "") /\
  (forall requests window cap radius,
     py_int (getenv env "RATE_LIMIT_REQUESTS" "100") = inr requests ->
     py_int (getenv env "RATE_LIMIT_WINDOW" "3600") = inr window ->
     py_int (getenv env "MAX_LOCATIONS_RETURNED" "5") = inr cap ->
     py_int (getenv env "MAPS_SEARCH_RADIUS" "50000") = inr radius ->
     (getenv env "GOOGLE_MAPS_API_KEY" "" = "" ->
      load_settings py_int env
      = inl (ValueError "GOOGLE_MAPS_API_KEY environment variable is required")) /\
     (getenv env "GOOGLE_MAPS_API_KEY" "" <> "" ->
      getenv env "GOOGLE_MAPS_JS_API_KEY" "" = "" ->
      load_settings py_int env
      = inl (ValueError "GOOGLE_MAPS_JS_API_KEY environment variable is required"))).
Proof.
  split.
  - intros C H.
    destruct (load_settings_inr py_int env C H)
      as (requests & window & cap & radius & _ & _ & _ & _ & Hkey & Hjs & ->).
    split; assumption.
  - intros requests window cap radius Hrequests Hwindow Hcap Hradius.
    unfold load_settings. cbv zeta.
    rewrite Hrequests, Hwindow, Hcap, Hradius. cbn [bind]. split.
    + intros ->. reflexivity.
    + intros Hkey ->.
      destruct (String.eqb_spec (getenv env "GOOGLE_MAPS_API_KEY" "") "");
        [contradiction | reflexivity].
Qed.

Lemma settings_require_both_keys_witness :
  (exists C,
     load_settings Sample.int_of_numeral Sample.environment = inr C /\
     GOOGLE_MAPS_API_KEY (core C) <> "" /\ GOOGLE_MAPS_JS_API_KEY C <> "") /\
  load_settings Sample.int_of_numeral [] 
  = inl (ValueError "GOOGLE_MAPS_API_KEY environment variable is required") /\
  load_settings Sample.int_of_numeral [("GOOGLE_MAPS_API_KEY", "AIzaSy-server-key")]
  = inl (ValueError "GOOGLE_MAPS_JS_API_KEY environment variable is required").
Proof.
  split; [| split].
  - eexists. split; [reflexivity |].
    apply (proj1 (settings_require_both_keys Sample.int_of_numeral Sample.environment)).
    reflexivity.
  - apply (proj1 (proj2 (settings_require_both_keys Sample.int_of_numeral [])
                    100 3600 5 50000 eq_refl eq_refl eq_refl eq_refl)).
    reflexivity.
  - apply (proj2 (proj2 (settings_require_both_keys Sample.int_of_numeral
                           [("GOOGLE_MAPS_API_KEY", "AIzaSy-server-key")])
                    100 3600 5 50000 eq_refl eq_refl eq_refl eq_refl));
      [discriminate | reflexivity].
Defined.

(** X26. The allowed origins of a loaded configuration are the
    comma-separated pieces of the environment value (of the three
    local origins when it is unset): the list is never empty, no
    origin contains a comma, and joining the origins with commas gives
    the value back. *)
Theorem allowed_origins_split (py_int : string -> result Z)
    (env : list (string * string)) (C : Config) :
  load_settings py_int env = inr C ->
  ALLOWED_ORIGINS C <> [] /\
  Forall (fun origin => contains_str "," origin = false) (ALLOWED_ORIGINS C) /\
  join_comma (ALLOWED_ORIGINS C)
  = getenv env "ALLOWED_ORIGINS"
      "http://localhost:3000,http://localhost:8080,http://127.0.0.1:5500".
Proof.
  intros H.
  destruct (load_settings_inr py_int env C H)
    as (requests & window & cap & radius & _ & _ & _ & _ & _ & _ & ->).
  cbn [ALLOWED_ORIGINS].
  split; [apply split_comma_not_nil |].
  split; [apply split_comma_no_comma | apply join_split_comma].
Qed.

Lemma allowed_origins_split_witness :
  exists C,
    load_settings Sample.int_of_numeral Sample.environment = inr C /\
    ALLOWED_ORIGINS C
    = ["http://localhost:3000"; "http://localhost:8080"; "http://127.0.0.1:5500"] /\
    ALLOWED_ORIGINS C <> [] /\
    Forall (fun origin => contains_str "," origin = false) (ALLOWED_ORIGINS C) /\
    join_comma (ALLOWED_ORIGINS C)
    = "http://localhost:3000,http://localhost:8080,http://127.0.0.1:5500".
Proof.
  eexists. split; [reflexivity |]. split; [reflexivity |].
  apply (allowed_origins_split Sample.int_of_numeral Sample.environment _ eq_refl).
Defined.

(** X27. For a loaded configuration the health report always says
    that Google Maps is "configured" (the other answer cannot occur
    once the settings have loaded), and it shows the Ollama URL and the
    two rate-limit numbers of the configuration. *)
Theorem health_reports_configured (py_int : string -> result Z)
    (env : list (string * string)) (C : Config) :
  load_settings py_int env = inr C ->
  health_check C
  = VDict [("status", VStr "healthy");
           ("services",
             VDict [("api", VStr "running");
                    ("ollama",
                      VStr (getenv env "OLLAMA_BASE_URL" "http://localhost:11434"));
                    ("google_maps", VStr "configured")]);
           ("rate_limits",
             VDict [("requests_per_window", VInt (RATE_LIMIT_REQUESTS C));
                    ("window_seconds", VInt (RATE_LIMIT_WINDOW C))])].
Proof.
  intros H.
  destruct (load_settings_inr py_int env C H)
    as (requests & window & cap & radius & _ & _ & _ & _ & Hkey & _ & ->).
  unfold health_check. cbn [core GOOGLE_MAPS_API_KEY OLLAMA_BASE_URL
                            RATE_LIMIT_REQUESTS RATE_LIMIT_WINDOW].
  destruct (String.eqb_spec (getenv env "GOOGLE_MAPS_API_KEY" "") "");
    [contradiction | reflexivity].
Qed.

Lemma health_reports_configured_witness :
  exists C,
    load_settings Sample.int_of_numeral Sample.environment = inr C /\
    health_check C
    = VDict [("status", VStr "healthy");
             ("services",
               VDict [("api", VStr "running");
                      ("ollama", VStr "http://localhost:11434");
                      ("google_maps", VStr "configured")]);
             ("rate_limits",
               VDict [("requests_per_window", VInt 100);
                      ("window_seconds", VInt 3600)])].
Proof.
  eexists. split; [reflexivity |].
  apply (health_reports_configured Sample.int_of_numeral Sample.environment _ eq_refl).
Defined.

(** ** Security headers *)

Lemma has_name_lowered (name value : string) : has_name name (lower name, value) = true.
Proof.
  unfold has_name. cbn [fst]. apply String.eqb_refl.
Qed.

Lemma filter_drop_same (name : string) (headers : list (string * string)) :
  filter (has_name name) (drop_header name headers) = [].
Proof.
  unfold drop_header. induction headers as [| header rest IH]; [reflexivity |].
  cbn [filter]. destruct (has_name name header) eqn:Hn; cbn [negb filter].
  - exact IH.
  - rewrite Hn. exact IH.
Qed.

(** Setting a name leaves exactly one header of that name. *)
Lemma filter_replace_same (name value : string) (headers : list (string * string)) :
  filter (has_name name) (replace_header name value headers) = [(lower name, value)].
Proof.
  induction headers as [| header rest IH]; cbn [replace_header].
  - cbn [filter]. rewrite has_name_lowered. reflexivity.
  - destruct (has_name name header) eqn:Hn; cbn [filter].
    + rewrite has_name_lowered, filter_drop_same. reflexivity.
    + rewrite Hn. exact IH.
Qed.

(** Setting a name leaves the headers that a test apart from that
    name selects as they were, in their order. *)
Lemma filter_replace_other (keep : string * string -> bool) (name value : string)
    (headers : list (string * string)) :
  (forall header, has_name name header = true -> keep header = false) ->
  filter keep (replace_header name value headers) = filter keep headers.
Proof.
  intros Hkeep.
  assert (Hdrop : forall l, filter keep (drop_header name l) = filter keep l).
  { unfold drop_header. induction l as [| header rest IH]; [reflexivity |].
    cbn [filter]. destruct (has_name name header) eqn:Hn; cbn [negb filter].
    - rewrite (Hkeep header Hn). exact IH.
    - rewrite IH. reflexivity. }
  induction headers as [| header rest IH]; cbn [replace_header].
  - cbn [filter]. rewrite (Hkeep _ (has_name_lowered name value)). reflexivity.
  - destruct (has_name name header) eqn:Hn; cbn [filter].
    + rewrite (Hkeep _ (has_name_lowered name value)), (Hkeep header Hn). apply Hdrop.
    + rewrite IH. reflexivity.
Qed.

Lemma replace_keeps_lowercase (name value : string) (headers : list (string * string)) :
  lowercase_names headers -> lowercase_names (replace_header name value headers).
Proof.
  unfold lowercase_names. intros H.
  induction H as [| header rest Hheader Hrest IH]; cbn [replace_header].
  - constructor; [apply lower_idempotent | constructor].
  - destruct (has_name name header).
    + constructor; [apply lower_idempotent |].
      unfold drop_header. apply Forall_forall. intros h Hin.
      apply filter_In in Hin. destruct Hin as [Hin _].
      rewrite Forall_forall in Hrest. apply Hrest. exact Hin.
    + constructor; assumption.
Qed.

Lemma find_replace_same (name value : string) (headers : list (string * string)) :
  find (has_name name) (replace_header name value headers) = Some (lower name, value).
Proof.
  induction headers as [| header rest IH]; cbn [replace_header].
  - cbn [find]. rewrite has_name_lowered. reflexivity.
  - destruct (has_name name header) eqn:Hn; cbn [find].
    + rewrite has_name_lowered. reflexivity.
    + rewrite Hn. exact IH.
Qed.

Lemma has_name_other (name other : string) :
  lower other <> lower name ->
  forall header, has_name name header = true -> has_name other header = false.
Proof.
  unfold has_name. intros Hne header Hn.
  apply String.eqb_eq in Hn. apply String.eqb_neq. congruence.
Qed.

Lemma find_replace_other (name value other : string) (headers : list (string * string)) :
  lower other <> lower name ->
  find (has_name other) (replace_header name value headers)
  = find (has_name other) headers.
Proof.
  intros Hne.
  assert (Hnew : has_name other (lower name, value) = false).
  { apply (has_name_other name other); [assumption | apply has_name_lowered]. }
  assert (Hdrop : forall l, find (has_name other) (drop_header name l)
                            = find (has_name other) l).
  { unfold drop_header. induction l as [| header rest IH]; [reflexivity |].
    cbn [filter find]. destruct (has_name name header) eqn:Hn; cbn [negb find].
    - rewrite (has_name_other name other Hne header Hn). exact IH.
    - destruct (has_name other header); [reflexivity | exact IH]. }
  induction headers as [| header rest IH]; cbn [replace_header].
  - cbn [find]. rewrite Hnew. reflexivity.
  - destruct (has_name name header) eqn:Hn; cbn [find].
    + rewrite Hnew, (has_name_other name other Hne header Hn). apply Hdrop.
    + destruct (has_name other header); [reflexivity | exact IH].
Qed.

Lemma get_set_same (name value : string) (response : Response) :
  get_header name (set_header name value response) = Some value.
Proof.
  unfold get_header, set_header. cbn [rs_headers].
  rewrite find_replace_same. reflexivity.
Qed.

Lemma get_set_other (name value other : string) (response : Response) :
  lower other <> lower name ->
  get_header other (set_header name value response) = get_header other response.
Proof.
  intros H. unfold get_header, set_header. cbn [rs_headers].
  rewrite find_replace_other by assumption. reflexivity.
Qed.

Lemma security_name_is_security_header (name : string) :
  In (lower name) SECURITY_HEADER_NAMES ->
  forall header, has_name name header = true -> negb (is_security_header header) = false.
Proof.
  intros Hin header Hn.
  assert (H : is_security_header header = true).
  { unfold is_security_header. apply existsb_exists.
    exists (lower name). split; [assumption |].
    unfold has_name in *. rewrite lower_idempotent. exact Hn. }
  rewrite H. reflexivity.
Qed.

(** When the headers of a name are one entry, a header that is stored
    under that name is that entry. *)
Lemma only_header (name value : string) (headers : list (string * string))
    (header : string * string) :
  filter (has_name name) headers = [(lower name, value)] ->
  In header headers -> fst header = lower name -> header = (lower name, value).
Proof.
  intros Hfilter Hin Hfst.
  assert (H : In header (filter (has_name name) headers)).
  { apply filter_In. split; [assumption |].
    unfold has_name. rewrite Hfst. apply String.eqb_refl. }
  rewrite Hfilter in H. destruct H as [H | []]. symmetry. exact H.
Qed.

(** X28. For a response whose header names are stored in lower case,
    as Starlette stores them, the middleware keeps status and body and
    the lower-case invariant; afterwards the header list holds exactly
    one header for each of the five security names, with the fixed
    value, so a value the handler set for one of them is replaced:
    every header of the list whose name is one of the five, letter
    case apart, is one of the five fixed headers.  The headers of
    every other name are the same entries in the same order.  A lookup
    gives the fixed values, and for another name what it gave before.
    An exception of the application passes through. *)
Theorem security_headers_are_fixed {Request : Type} (request : Request)
    (call_next : Request -> result Response) :
  (forall response,
     call_next request = inr response ->
     lowercase_names (rs_headers response) ->
     exists secured,
       add_security_headers request call_next = inr secured /\
       rs_status secured = rs_status response /\
       rs_body secured = rs_body response /\
       lowercase_names (rs_headers secured) /\
       filter (has_name "X-Content-Type-Options") (rs_headers secured)
       = [("x-content-type-options", "nosniff")] /\
       filter (has_name "X-Frame-Options") (rs_headers secured)
       = [("x-frame-options", "DENY")] /\
       filter (has_name "X-XSS-Protection") (rs_headers secured)
       = [("x-xss-protection", "1; mode=block")] /\
       filter (has_name "Referrer-Policy") (rs_headers secured)
       = [("referrer-policy", "strict-origin-when-cross-origin")] /\
       filter (has_name "Content-Security-Policy") (rs_headers secured)
       = [("content-security-policy", CONTENT_SECURITY_POLICY)] /\
       (forall header,
          In header (rs_headers secured) ->
          In (lower (fst header)) SECURITY_HEADER_NAMES ->
          In header SECURITY_HEADERS) /\
       filter (fun header => negb (is_security_header header)) (rs_headers secured)
       = filter (fun header => negb (is_security_header header)) (rs_headers response) /\
       get_header "X-Content-Type-Options" secured = Some "nosniff" /\
       get_header "X-Frame-Options" secured = Some "DENY" /\
       get_header "X-XSS-Protection" secured = Some "1; mode=block" /\
       get_header "Referrer-Policy" secured = Some "strict-origin-when-cross-origin" /\
       get_header "Content-Security-Policy" secured = Some CONTENT_SECURITY_POLICY /\
       (forall name,
          ~ In (lower name) SECURITY_HEADER_NAMES ->
          get_header name secured = get_header name response)) /\
  (forall e, call_next request = inl e -> add_security_headers request call_next = inl e).
Proof.
  split.
  - intros response Hnext Hlower. unfold add_security_headers. rewrite Hnext. cbn [bind].
    eexists. split; [reflexivity |].
    split; [reflexivity |]. split; [reflexivity |].
    unfold get_header. cbn [set_header rs_headers rs_status rs_body].
    set (secured_headers :=
           replace_header "Content-Security-Policy" CONTENT_SECURITY_POLICY
             (replace_header "Referrer-Policy" "strict-origin-when-cross-origin"
                (replace_header "X-XSS-Protection" "1; mode=block"
                   (replace_header "X-Frame-Options" "DENY"
                      (replace_header "X-Content-Type-Options" "nosniff"
                         (rs_headers response)))))).
    assert (Hsecured : lowercase_names secured_headers)
      by (repeat apply replace_keeps_lowercase; exact Hlower).
    assert (Hcto : filter (has_name "X-Content-Type-Options") secured_headers
                   = [("x-content-type-options", "nosniff")]).
    { unfold secured_headers.
      rewrite !(filter_replace_other (has_name "X-Content-Type-Options"))
        by (apply has_name_other; cbv; discriminate).
      apply filter_replace_same. }
    assert (Hframe : filter (has_name "X-Frame-Options") secured_headers
                     = [("x-frame-options", "DENY")]).
    { unfold secured_headers.
      rewrite !(filter_replace_other (has_name "X-Frame-Options"))
        by (apply has_name_other; cbv; discriminate).
      apply filter_replace_same. }
    assert (Hxss : filter (has_name "X-XSS-Protection") secured_headers
                   = [("x-xss-protection", "1; mode=block")]).
    { unfold secured_headers.
      rewrite !(filter_replace_other (has_name "X-XSS-Protection"))
        by (apply has_name_other; cbv; discriminate).
      apply filter_replace_same. }
    assert (Hreferrer : filter (has_name "Referrer-Policy") secured_headers
                        = [("referrer-policy", "strict-origin-when-cross-origin")]).
    { unfold secured_headers.
      rewrite !(filter_replace_other (has_name "Referrer-Policy"))
        by (apply has_name_other; cbv; discriminate).
      apply filter_replace_same. }
    assert (Hcsp : filter (has_name "Content-Security-Policy") secured_headers
                   = [("content-security-policy", CONTENT_SECURITY_POLICY)])
      by apply filter_replace_same.
    split; [exact Hsecured |].
    split; [exact Hcto |]. split; [exact Hframe |]. split; [exact Hxss |].
    split; [exact Hreferrer |]. split; [exact Hcsp |].
    split.
    { intros header Hin Hname.
      unfold lowercase_names in Hsecured. rewrite Forall_forall in Hsecured.
      rewrite (Hsecured header Hin) in Hname.
      unfold SECURITY_HEADER_NAMES in Hname. cbn [In] in Hname.
      unfold SECURITY_HEADERS. cbn [In].
      destruct Hname as [Hname | [Hname | [Hname | [Hname | [Hname | []]]]]];
        symmetry in Hname.
      - left. symmetry.
        exact (only_header "X-Content-Type-Options" _ _ header Hcto Hin Hname).
      - right; left. symmetry.
        exact (only_header "X-Frame-Options" _ _ header Hframe Hin Hname).
      - do 2 right; left. symmetry.
        exact (only_header "X-XSS-Protection" _ _ header Hxss Hin Hname).
      - do 3 right; left. symmetry.
        exact (only_header "Referrer-Policy" _ _ header Hreferrer Hin Hname).
      - do 4 right; left. symmetry.
        exact (only_header "Content-Security-Policy" _ _ header Hcsp Hin Hname). }
    unfold secured_headers. clear secured_headers Hsecured Hcto Hframe Hxss Hreferrer Hcsp.
    split.
    { rewrite !(filter_replace_other (fun header => negb (is_security_header header)))
        by (apply security_name_is_security_header; cbv; auto 10).
      reflexivity. }
    split.
    { rewrite !(find_replace_other _ _ "X-Content-Type-Options") by (cbv; discriminate).
      rewrite find_replace_same. reflexivity. }
    split.
    { rewrite !(find_replace_other _ _ "X-Frame-Options") by (cbv; discriminate).
      rewrite find_replace_same. reflexivity. }
    split.
    { rewrite !(find_replace_other _ _ "X-XSS-Protection") by (cbv; discriminate).
      rewrite find_replace_same. reflexivity. }
    split.
    { rewrite !(find_replace_other _ _ "Referrer-Policy") by (cbv; discriminate).
      rewrite find_replace_same. reflexivity. }
    split; [rewrite find_replace_same; reflexivity |].
    intros name Hname.
    unfold SECURITY_HEADER_NAMES in Hname. cbn [In] in Hname.
    rewrite !find_replace_other; [reflexivity | | | | |];
      intros Heq; apply Hname; rewrite Heq; cbv; auto 10.
  - intros e Hnext. unfold add_security_headers. rewrite Hnext. reflexivity.
Qed.

Lemma security_headers_are_fixed_witness :
  exists secured,
    add_security_headers tt
      (fun _ => ret {| rs_status := 200;
                       rs_headers := [("content-type", "application/json");
                                      ("x-frame-options", "SAMEORIGIN");
                                      ("x-frame-options", "ALLOWALL")];
                       rs_body := "{}" |}) = inr secured /\
    filter (has_name "X-Frame-Options") (rs_headers secured)
    = [("x-frame-options", "DENY")] /\
    filter (fun header => negb (is_security_header header)) (rs_headers secured)
    = [("content-type", "application/json")] /\
    get_header "X-Frame-Options" secured = Some "DENY" /\
    rs_status secured = 200.
Proof.
  destruct (proj1 (security_headers_are_fixed tt
                     (fun _ => ret {| rs_status := 200;
                                      rs_headers := [("content-type", "application/json");
                                                     ("x-frame-options", "SAMEORIGIN");
                                                     ("x-frame-options", "ALLOWALL")];
                                      rs_body := "{}" |})) _ eq_refl)
    as (secured & Hrun & Hstatus & _ & _ & _ & Hframe & _ & _ & _ & _ & Hothers
        & _ & Hget & _).
  { repeat constructor. }
  exists secured. split; [exact Hrun |]. split; [exact Hframe |].
  split; [exact Hothers |]. split; [exact Hget | exact Hstatus].
Defined.
